(** * rag-python-mongodb: the query cache and the Cosmos DB vector store

A shallow embedding of [cache_manager.py], [vector_store_manager.py] and
the parts of [rag_chain.py] that drive them, followed by the properties
the specification states about them.

Conventions of the embedding:
- a Python [str] is a Rocq [string] whose characters are the code points
  U+0000..U+00FF;
- a Python [int] is a [Z];
- wall-clock readings ([time.time()]) and time-to-live values are
  floats, written as the rationals they denote; their difference is
  rounded as binary64 rounds it ([Py.float_sub]), and every function
  that reads the clock takes the reading as its argument [now];
- the hit rate of [get_stats] is computed on IEEE-754 binary64 values
  ([spec_float] with 53 bits of precision);
- an exception is a value of [exn]; a call that can raise returns a
  [result]. *)

From Stdlib Require Import List String Ascii Bool ZArith QArith Qpower Lia.
From Stdlib Require Import DecimalString SpecFloat.
From Stdlib Require DecimalZ DecimalPos.
Import ListNotations.

Local Open Scope Z_scope.

(** ** Exceptions *)

(** [Exception cls] is an instance of a class below [Exception];
    [BaseException cls] one that is not ([KeyboardInterrupt], [SystemExit]).
    [except Exception] catches the first kind only, a bare [except:] both. *)
Inductive exn : Type :=
| Exception (cls : string)
| BaseException (cls : string).

Definition is_Exception (e : exn) : bool :=
  match e with Exception _ => true | BaseException _ => false end.

Inductive result (A : Type) : Type :=
| Ok (a : A)
| Raise (e : exn).
Arguments Ok {A} a.
Arguments Raise {A} e.

(** ** Python library functions used by the source *)

Module Py.

Definition ord (c : ascii) : Z := Z.of_N (N_of_ascii c).
Definition chr (z : Z) : ascii := ascii_of_N (Z.to_N z).

Definition quote : ascii := chr 34.
Definition backslash : ascii := chr 92.

(** [repr] of an [int]. *)
Definition str_of_int (z : Z) : string := NilZero.string_of_int (Z.to_int z).

(** [len] of a dict or list, as a Python [int]. *)
Definition len {A : Type} (l : list A) : Z := Z.of_nat (List.length l).

(** *** [str.lower] and [str.strip] *)

Definition lower_char (c : ascii) : ascii :=
  let n := ord c in
  if ((65 <=? n) && (n <=? 90))
     || ((192 <=? n) && (n <=? 222) && negb (n =? 215))
  then chr (n + 32) else c.

Fixpoint lower (s : string) : string :=
  match s with
  | EmptyString => EmptyString
  | String c r => String (lower_char c) (lower r)
  end.

Definition isspace (c : ascii) : bool :=
  let n := ord c in
  ((9 <=? n) && (n <=? 13)) || ((28 <=? n) && (n <=? 32))
  || (n =? 133) || (n =? 160).

Fixpoint lstrip (s : string) : string :=
  match s with
  | EmptyString => EmptyString
  | String c r => if isspace c then lstrip r else s
  end.

Fixpoint rstrip (s : string) : string :=
  match s with
  | EmptyString => EmptyString
  | String c r =>
      match rstrip r with
      | EmptyString => if isspace c then EmptyString else String c EmptyString
      | r' => String c r'
      end
  end.

Definition strip (s : string) : string := rstrip (lstrip s).

(** *** [json.dumps] (default [ensure_ascii=True], default separators) *)

Definition hex_digit (n : Z) : ascii :=
  if n <? 10 then chr (48 + n) else chr (87 + n).

Definition hex_byte (n : Z) : string :=
  String (hex_digit (n / 16)) (String (hex_digit (n mod 16)) EmptyString).

Definition json_escape_char (c : ascii) : string :=
  let n := ord c in
  if n =? 34 then String backslash (String quote EmptyString)
  else if n =? 92 then String backslash (String backslash EmptyString)
  else if n =? 10 then String backslash "n"%string
  else if n =? 13 then String backslash "r"%string
  else if n =? 9 then String backslash "t"%string
  else if n =? 8 then String backslash "b"%string
  else if n =? 12 then String backslash "f"%string
  else if (32 <=? n) && (n <=? 126) then String c EmptyString
  else String backslash ("u00" ++ hex_byte n)%string.

Fixpoint json_escape (s : string) : string :=
  match s with
  | EmptyString => EmptyString
  | String c r => (json_escape_char c ++ json_escape r)%string
  end.

Definition json_str (s : string) : string :=
  String quote (json_escape s ++ String quote EmptyString)%string.

(** [json.dumps({"query": q, "top_k": k}, sort_keys=True)]: the keys come
    out in sorted order, ["query"] before ["top_k"]. *)
Definition json_dumps_key_data (q : string) (top_k : Z) : string :=
  ("{" ++ json_str "query" ++ ": " ++ json_str q ++ ", "
       ++ json_str "top_k" ++ ": " ++ str_of_int top_k ++ "}")%string.

(** [str.encode()]: the dumped text is pure ASCII, one byte per character. *)
Fixpoint encode (s : string) : list Z :=
  match s with
  | EmptyString => []
  | String c r => ord c :: encode r
  end.

(** *** [hashlib.md5(...).hexdigest()] (RFC 1321) *)

Definition w32 (x : Z) : Z := Z.land x 4294967295.
Definition add32 (x y : Z) : Z := w32 (x + y).
Definition not32 (x : Z) : Z := Z.lxor x 4294967295.
Definition rotl32 (x s : Z) : Z :=
  w32 (Z.lor (Z.shiftl x s) (Z.shiftr x (32 - s))).

Definition md5_shift : list Z :=
  [7; 12; 17; 22; 7; 12; 17; 22; 7; 12; 17; 22; 7; 12; 17; 22;
   5; 9; 14; 20; 5; 9; 14; 20; 5; 9; 14; 20; 5; 9; 14; 20;
   4; 11; 16; 23; 4; 11; 16; 23; 4; 11; 16; 23; 4; 11; 16; 23;
   6; 10; 15; 21; 6; 10; 15; 21; 6; 10; 15; 21; 6; 10; 15; 21].

Definition md5_K : list Z :=
  [0xd76aa478; 0xe8c7b756; 0x242070db; 0xc1bdceee; 0xf57c0faf; 0x4787c62a;
   0xa8304613; 0xfd469501; 0x698098d8; 0x8b44f7af; 0xffff5bb1; 0x895cd7be;
   0x6b901122; 0xfd987193; 0xa679438e; 0x49b40821; 0xf61e2562; 0xc040b340;
   0x265e5a51; 0xe9b6c7aa; 0xd62f105d; 0x02441453; 0xd8a1e681; 0xe7d3fbc8;
   0x21e1cde6; 0xc33707d6; 0xf4d50d87; 0x455a14ed; 0xa9e3e905; 0xfcefa3f8;
   0x676f02d9; 0x8d2a4c8a; 0xfffa3942; 0x8771f681; 0x6d9d6122; 0xfde5380c;
   0xa4beea44; 0x4bdecfa9; 0xf6bb4b60; 0xbebfbc70; 0x289b7ec6; 0xeaa127fa;
   0xd4ef3085; 0x04881d05; 0xd9d4d039; 0xe6db99e5; 0x1fa27cf8; 0xc4ac5665;
   0xf4292244; 0x432aff97; 0xab9423a7; 0xfc93a039; 0x655b59c3; 0x8f0ccc92;
   0xffeff47d; 0x85845dd1; 0x6fa87e4f; 0xfe2ce6e0; 0xa3014314; 0x4e0811a1;
   0xf7537e82; 0xbd3af235; 0x2ad7d2bb; 0xeb86d391].

(** Little-endian bytes of [x], [n] of them. *)
Fixpoint le_bytes (n : nat) (x : Z) : list Z :=
  match n with
  | O => []
  | S n' => Z.land x 255 :: le_bytes n' (Z.shiftr x 8)
  end.

Definition md5_pad (msg : list Z) : list Z :=
  let l := len msg in
  msg ++ [128] ++ repeat 0 (Z.to_nat ((55 - l) mod 64)) ++ le_bytes 8 (8 * l).

Fixpoint le_word (bs : list Z) : Z :=
  match bs with
  | [] => 0
  | b :: r => b + 256 * le_word r
  end.

(** The 16 little-endian words of one 64-byte block. *)
Fixpoint words (n : nat) (bs : list Z) : list Z :=
  match n with
  | O => []
  | S n' => le_word (firstn 4 bs) :: words n' (skipn 4 bs)
  end.

Definition md5_step (M : list Z) (st : Z * Z * Z * Z) (i : Z)
  : Z * Z * Z * Z :=
  let '(A, B, C, D) := st in
  let '(F, g) :=
    if i <? 16 then (Z.lor (Z.land B C) (Z.land (not32 B) D), i)
    else if i <? 32 then
      (Z.lor (Z.land D B) (Z.land (not32 D) C), (5 * i + 1) mod 16)
    else if i <? 48 then (Z.lxor B (Z.lxor C D), (3 * i + 5) mod 16)
    else (Z.lxor C (Z.lor B (not32 D)), (7 * i) mod 16) in
  let F' := add32 (add32 (add32 F A) (nth (Z.to_nat i) md5_K 0))
                  (nth (Z.to_nat g) M 0) in
  (D, add32 B (rotl32 F' (nth (Z.to_nat i) md5_shift 0)), B, C).

Definition md5_block (st : Z * Z * Z * Z) (block : list Z) : Z * Z * Z * Z :=
  let M := words 16 block in
  let '(a0, b0, c0, d0) := st in
  let '(A, B, C, D) :=
    fold_left (md5_step M) (map Z.of_nat (seq 0 64)) st in
  (add32 a0 A, add32 b0 B, add32 c0 C, add32 d0 D).

Fixpoint md5_blocks (n : nat) (st : Z * Z * Z * Z) (bs : list Z)
  : Z * Z * Z * Z :=
  match n with
  | O => st
  | S n' => md5_blocks n' (md5_block st (firstn 64 bs)) (skipn 64 bs)
  end.

Definition md5_digest (msg : list Z) : list Z :=
  let p := md5_pad msg in
  let '(a, b, c, d) :=
    md5_blocks (List.length p / 64)
               (0x67452301, 0xefcdab89, 0x98badcfe, 0x10325476) p in
  le_bytes 4 a ++ le_bytes 4 b ++ le_bytes 4 c ++ le_bytes 4 d.

Definition md5_hexdigest (msg : list Z) : string :=
  fold_right (fun b acc => (hex_byte b ++ acc)%string) EmptyString
             (md5_digest msg).

(** *** [dict] with [str] keys: the items in insertion order *)

Section Dict.

Context {V : Type}.

Definition dict : Type := list (string * V).

(** [d.get(k)], and [d[k]] for a key that is present. *)
Fixpoint dict_get (k : string) (d : dict) : option V :=
  match d with
  | [] => None
  | (k', v) :: r => if String.eqb k k' then Some v else dict_get k r
  end.

(** [d[k] = v]: an existing key keeps its place, a new one goes last. *)
Fixpoint dict_set (k : string) (v : V) (d : dict) : dict :=
  match d with
  | [] => [(k, v)]
  | (k', v') :: r =>
      if String.eqb k k' then (k, v) :: r else (k', v') :: dict_set k v r
  end.

(** [del d[k]] for a key that is present. *)
Fixpoint dict_del (k : string) (d : dict) : dict :=
  match d with
  | [] => []
  | (k', v') :: r =>
      if String.eqb k k' then r else (k', v') :: dict_del k r
  end.

Definition keys (d : dict) : list string := map fst d.

(** No key occurs twice: what every [dict] built by [dict_set] and
    [dict_del] from the empty one satisfies. *)
Fixpoint unique_keys (d : dict) : bool :=
  match d with
  | [] => true
  | (k, _) :: r => negb (existsb (String.eqb k) (keys r)) && unique_keys r
  end.

End Dict.

Arguments dict V : clear implicits.

(** *** [min(iterable, key=f)] on rationals

CPython keeps the first element and replaces it by a later one only
when that one's key is strictly smaller; an empty iterable raises
[ValueError] ([None] here). *)

Definition Qltb (x y : Q) : bool :=
  match (x ?= y)%Q with Lt => true | _ => false end.

Definition min_by {K : Type} (key : K -> Q) (l : list K) : option K :=
  match l with
  | [] => None
  | x :: r =>
      Some (fold_left (fun best y => if Qltb (key y) (key best) then y else best)
                      r x)
  end.

(** *** binary64 arithmetic and [format(x, ".2f")] *)

Definition float : Type := spec_float.
Definition prec : Z := 53.
Definition emax : Z := 1024.

(** An [int] seen as an exact, not yet rounded, binary value. *)
Definition exact_int (z : Z) : float :=
  match z with
  | Z0 => S754_zero false
  | Zpos p => S754_finite false p 0
  | Zneg p => S754_finite true p 0
  end.

(** [a / b] on ints: the correctly rounded quotient. *)
Definition int_truediv (a b : Z) : float :=
  SFdiv prec emax (exact_int a) (exact_int b).

(** [x * n] for a float [x] and an int [n]. *)
Definition float_mul_int (x : float) (n : Z) : float :=
  SFmul prec emax x (binary_normalize prec emax n 0 false).

Definition round_half_even_div (num den : Z) : Z :=
  let q := num / den in
  match (2 * (num mod den) ?= den) with
  | Lt => q
  | Gt => q + 1
  | Eq => if Z.even q then q else q + 1
  end.

(** The value [m * 2^e] in hundredths, rounded to nearest, ties to even. *)
Definition hundredths (m : positive) (e : Z) : Z :=
  if 0 <=? e then Zpos m * 100 * 2 ^ e
  else round_half_even_div (Zpos m * 100) (2 ^ (- e)).

Definition sign_str (s : bool) : string :=
  if s then "-"%string else EmptyString.

Definition format_2f (x : float) : string :=
  match x with
  | S754_nan => "nan"%string
  | S754_infinity s => (sign_str s ++ "inf")%string
  | S754_zero s => (sign_str s ++ "0.00")%string
  | S754_finite s m e =>
      let n := hundredths m e in
      (sign_str s ++ str_of_int (n / 100) ++ "."
         ++ String (chr (48 + (n mod 100) / 10))
              (String (chr (48 + n mod 10)) EmptyString))%string
  end.

(** The rational a finite float denotes. *)
Definition float_value (x : float) : Q :=
  match x with
  | S754_finite s m e =>
      (inject_Z (if s then Zneg m else Zpos m) * 2 ^ e)%Q
  | _ => 0%Q
  end.

(** *** [float] values as rationals, and [x - y] on them

A finite binary64 value is a rational [m * 2^e] with [|m| < 2^53].
[round53] rounds a rational to 53 significant bits, to nearest, ties to
even; it leaves a binary64 value as it is.  [x - y] on two floats is
their exact difference so rounded.  The exponent range of binary64 does
not show in a difference: below [2^-1022] the difference of two floats
is a multiple of [2^-1074] of fewer than 53 bits, hence exact, and
where binary64 overflows to infinity the rounded value exceeds every
finite float as well. *)

(** [floor (log2 q)], for [0 < q]. *)
Definition ilog2 (q : Q) : Z :=
  let l := Z.log2 (Qnum q) - Z.log2 (Zpos (Qden q)) in
  if Qle_bool (2 ^ l) q then l else l - 1.

(** The integer nearest to [q], ties to even. *)
Definition round_half_even (q : Q) : Z :=
  round_half_even_div (Qnum q) (Zpos (Qden q)).

Definition round53_pos (q : Q) : Q :=
  let e := ilog2 q - 52 in
  (inject_Z (round_half_even (q * 2 ^ (- e))) * 2 ^ e)%Q.

Definition round53 (q : Q) : Q :=
  match Qnum q with
  | Z0 => 0%Q
  | Zpos _ => round53_pos q
  | Zneg _ => (- round53_pos (- q))%Q
  end.

(** [x - y] for floats [x] and [y]. *)
Definition float_sub (x y : Q) : Q := round53 (x - y).

End Py.

(** ** cache_manager.py *)

Module Cache.

(** [hashlib.md5(json.dumps(key_data, sort_keys=True).encode()).hexdigest()]
    with [key_data = {"query": query.lower().strip(), "top_k": top_k}]. *)
Definition _generate_key (query : string) (top_k : Z) : string :=
  Py.md5_hexdigest
    (Py.encode (Py.json_dumps_key_data (Py.strip (Py.lower query)) top_k)).

(** The values of the dictionary [get_stats] returns. *)
Inductive stat : Type :=
| StatInt (z : Z)
| StatStr (s : string).

Section WithData.

(** The cached payload ([Any] in the source). *)
Context {A : Type}.

Record CacheEntry : Type := mkCacheEntry {
  data : A;
  timestamp : Q;
  ttl : Q
}.

(** [time.time() - self.timestamp > self.ttl]: the float difference of
    the two clock readings against [ttl], which the dataclass declares a
    [float] and which is read as one. *)
Definition is_expired (now : Q) (e : CacheEntry) : bool :=
  Py.Qltb (Py.round53 (ttl e)) (Py.float_sub now (timestamp e)).

Record QueryCache : Type := mkQueryCache {
  cache : Py.dict CacheEntry;
  max_size : Z;
  default_ttl : Q;
  hits : Z;
  misses : Z
}.

Definition __init__ (max_size : Z) (default_ttl : Q) : QueryCache :=
  mkQueryCache [] max_size default_ttl 0 0.

Definition with_cache (d : Py.dict CacheEntry) (c : QueryCache) : QueryCache :=
  mkQueryCache d (max_size c) (default_ttl c) (hits c) (misses c).

Definition get (now : Q) (query : string) (top_k : Z) (c : QueryCache)
  : option A * QueryCache :=
  let key := _generate_key query top_k in
  let miss (d : Py.dict CacheEntry) :=
    (None, mkQueryCache d (max_size c) (default_ttl c) (hits c)
                        (misses c + 1)) in
  match Py.dict_get key (cache c) with
  | Some entry =>
      if negb (is_expired now entry) then
        (Some (data entry),
         mkQueryCache (cache c) (max_size c) (default_ttl c) (hits c + 1)
                      (misses c))
      else miss (Py.dict_del key (cache c))
  | None => miss (cache c)
  end.

(** [ttl or self.default_ttl]: [None] and [0] are both falsy. *)
Definition ttl_or_default (ttl : option Q) (c : QueryCache) : Q :=
  match ttl with
  | Some t => if Qeq_bool t 0 then default_ttl c else t
  | None => default_ttl c
  end.

(** The key function of the eviction scan, [self.cache[k].timestamp]. *)
Definition timestamp_of (d : Py.dict CacheEntry) (k : string) : Q :=
  match Py.dict_get k d with
  | Some e => timestamp e
  | None => 0
  end.

Definition put (now : Q) (query : string) (res : A) (top_k : Z)
           (ttl : option Q) (c : QueryCache) : result unit * QueryCache :=
  let key := _generate_key query top_k in
  let entry := mkCacheEntry res now (ttl_or_default ttl c) in
  if Py.len (cache c) >=? max_size c then
    match Py.min_by (timestamp_of (cache c)) (Py.keys (cache c)) with
    | None => (Raise (Exception "ValueError"), c)
    | Some oldest_key =>
        (Ok tt, with_cache (Py.dict_set key entry
                              (Py.dict_del oldest_key (cache c))) c)
    end
  else (Ok tt, with_cache (Py.dict_set key entry (cache c)) c).

Definition clear (c : QueryCache) : QueryCache :=
  mkQueryCache [] (max_size c) (default_ttl c) 0 0.

(** The local [hit_rate] of [get_stats]; the literal [0] of the
    [else] branch prints like [0.0]. *)
Definition hit_rate (c : QueryCache) : Py.float :=
  let total_requests := hits c + misses c in
  if total_requests >? 0
  then Py.float_mul_int (Py.int_truediv (hits c) total_requests) 100
  else S754_zero false.

Definition get_stats (c : QueryCache) : list (string * stat) :=
  [("hits", StatInt (hits c));
   ("misses", StatInt (misses c));
   ("hit_rate", StatStr (Py.format_2f (hit_rate c) ++ "%"));
   ("cache_size", StatInt (Py.len (cache c)));
   ("max_size", StatInt (max_size c))]%string.

(** A call made on a cache, with the clock reading it observes. *)
Inductive call : Type :=
| CallGet (now : Q) (query : string) (top_k : Z)
| CallPut (now : Q) (query : string) (res : A) (top_k : Z) (ttl : option Q)
| CallClear
| CallStats.

Definition step (c : QueryCache) (o : call) : QueryCache :=
  match o with
  | CallGet now q k => snd (get now q k c)
  | CallPut now q v k t => snd (put now q v k t c)
  | CallClear => clear c
  | CallStats => c
  end.

Definition run (os : list call) (c : QueryCache) : QueryCache :=
  fold_left step os c.

End WithData.

Arguments CacheEntry A : clear implicits.
Arguments QueryCache A : clear implicits.
Arguments call A : clear implicits.

End Cache.

(** ** vector_store_manager.py *)

Module Store.

(** An embedding vector; the store only passes it on. *)
Definition vector : Type := list Q.

(** The values found in a metadata mapping. *)
Inductive value : Type :=
| VStr (s : string)
| VInt (z : Z)
| VNum (q : Q).

(** [langchain.schema.Document] *)
Record Document : Type := mkDocument {
  page_content : string;
  metadata : Py.dict value
}.

(** The record [add_documents] hands to the collection. *)
Record doc_dict : Type := mkDocDict {
  _id : string;
  content : string;
  doc_metadata : Py.dict value;
  embedding : vector
}.

(** A document the collection returns from a search: each projected key
    may be missing. *)
Record hit : Type := mkHit {
  hit_content : option string;
  hit_metadata : option (Py.dict value);
  hit_score : option value
}.

(** A request that leaves the process: to the embedding provider or to
    the collection. *)
Inductive request : Type :=
| EmbedDocuments (texts : list string)
| EmbedQuery (query : string)
| InsertMany (docs : list doc_dict)
| InsertOne (doc : doc_dict)
| Aggregate (query_embedding : vector) (k : Z)
| FindText (query : string) (k : Z)
| DeleteMany.

(** The collaborators of [CosmosDBVectorStore]: [self.embeddings], the
    pymongo [self.collection] and the built-in [hash], over a state [St] of
    the outside world.  Each call may raise and may change that state. *)
Class Backend (St : Type) : Type := {
  hash : string -> Z;
  embed_documents : list string -> St -> result (list vector) * St;
  embed_query : string -> St -> result vector * St;
  (** [insert_many(docs, ordered=False)] *)
  insert_many : list doc_dict -> St -> result unit * St;
  insert_one : doc_dict -> St -> result unit * St;
  (** [aggregate] of the [$search]/[cosmosSearch] pipeline on path
      ["embedding"] with [$project] of content, metadata and score *)
  aggregate : vector -> Z -> St -> result (list hit) * St;
  (** [find({"$text": ...}).sort(textScore).limit(k)] *)
  find_text : string -> Z -> St -> result (list hit) * St;
  (** [delete_many({})], returning [deleted_count] *)
  delete_many : St -> result Z * St
}.

Section WithBackend.

Context {St : Type} {B : Backend St}.

(** The outside world and the requests sent to it so far. *)
Record world : Type := mkWorld {
  state : St;
  calls : list request
}.

(** Computations that send requests and may raise. *)
Definition M (A : Type) : Type := world -> result A * world.

Definition ret {A : Type} (a : A) : M A := fun w => (Ok a, w).

Definition bind {A C : Type} (m : M A) (f : A -> M C) : M C :=
  fun w =>
    match m w with
    | (Ok a, w') => f a w'
    | (Raise e, w') => (Raise e, w')
    end.

Definition raise {A : Type} (e : exn) : M A := fun w => (Raise e, w).

Definition lift {A : Type} (r : result A) : M A := fun w => (r, w).

(** [try: m  except <catches>: handler] *)
Definition try_except {A : Type} (m : M A) (catches : exn -> bool)
           (handler : M A) : M A :=
  fun w =>
    match m w with
    | (Ok a, w') => (Ok a, w')
    | (Raise e, w') => if catches e then handler w' else (Raise e, w')
    end.

Definition any_exception (e : exn) : bool := true.

Definition send {A : Type} (r : request) (f : St -> result A * St) : M A :=
  fun w =>
    let (x, s') := f (state w) in
    (x, mkWorld s' (calls w ++ [r])).

Notation "x <- m ;; k" := (bind m (fun x => k))
  (at level 61, m at next level, right associativity).
Notation "m ;;; k" := (bind m (fun _ => k))
  (at level 61, right associativity).

(** [ids[i] if ids and i < len(ids) else f"doc_{i}_{hash(...)}"] *)
Definition doc_id (ids : option (list string)) (i : nat) (doc : Document)
  : string :=
  let generated :=
    ("doc_" ++ Py.str_of_int (Z.of_nat i) ++ "_"
       ++ Py.str_of_int (hash (page_content doc)))%string in
  match ids with
  | Some l =>
      match nth_error l i with
      | Some id => id
      | None => generated
      end
  | None => generated
  end.

(** The loop over [enumerate(zip(documents, embeddings))], from index [i]. *)
Fixpoint prepare (ids : option (list string)) (i : nat)
         (pairs : list (Document * vector)) : list doc_dict :=
  match pairs with
  | [] => []
  | (doc, emb) :: r =>
      mkDocDict (doc_id ids i doc) (page_content doc) (metadata doc) emb
        :: prepare ids (S i) r
  end.

(** The per-document fallback: [try: insert_one(doc)  except: pass]. *)
Fixpoint insert_each (docs : list doc_dict) : M unit :=
  match docs with
  | [] => ret tt
  | doc :: r =>
      try_except (send (InsertOne doc) (insert_one doc)) any_exception
                 (ret tt) ;;;
      insert_each r
  end.

Definition add_documents (documents : list Document)
           (ids : option (list string)) : M (list string) :=
  match documents with
  | [] => ret []
  | _ =>
      let texts := map page_content documents in
      embeddings <- send (EmbedDocuments texts) (embed_documents texts) ;;
      let docs_to_insert := prepare ids 0 (combine documents embeddings) in
      let inserted_ids := map _id docs_to_insert in
      try_except
        (match docs_to_insert with
         | [] => ret tt
         | _ => send (InsertMany docs_to_insert) (insert_many docs_to_insert)
         end)
        is_Exception
        (insert_each docs_to_insert) ;;;
      ret inserted_ids
  end.

Definition or_default {A : Type} (o : option A) (d : A) : A :=
  match o with Some a => a | None => d end.

(** [Document(page_content=result["content"],
              metadata={**result.get("metadata", {}),
                        "score": result.get("score", 0)})] *)
Definition scored_document (r : hit) : result Document :=
  match hit_content r with
  | None => Raise (Exception "KeyError")
  | Some c =>
      Ok (mkDocument c
            (Py.dict_set "score" (or_default (hit_score r) (VInt 0))
                         (or_default (hit_metadata r) [])))
  end.

(** [Document(page_content=result["content"],
              metadata=result.get("metadata", {}))] *)
Definition plain_document (r : hit) : result Document :=
  match hit_content r with
  | None => Raise (Exception "KeyError")
  | Some c => Ok (mkDocument c (or_default (hit_metadata r) []))
  end.

(** [for result in results: documents.append(...)] *)
Fixpoint documents_of (f : hit -> result Document) (results : list hit)
  : result (list Document) :=
  match results with
  | [] => Ok []
  | r :: rest =>
      match f r with
      | Raise e => Raise e
      | Ok doc =>
          match documents_of f rest with
          | Raise e => Raise e
          | Ok docs => Ok (doc :: docs)
          end
      end
  end.

Definition _fallback_search (query : string) (k : Z) : M (list Document) :=
  try_except
    (results <- send (FindText query k) (find_text query k) ;;
     lift (documents_of plain_document results))
    any_exception
    (ret []).

(** The body of the [try] of [similarity_search]. *)
Definition vector_search (query_embedding : vector) (k : Z)
  : M (list Document) :=
  results <- send (Aggregate query_embedding k)
                  (aggregate query_embedding k) ;;
  lift (documents_of scored_document results).

Definition similarity_search (query : string) (k : Z) : M (list Document) :=
  query_embedding <- send (EmbedQuery query) (embed_query query) ;;
  try_except (vector_search query_embedding k) is_Exception
             (_fallback_search query k).

Definition delete_all : M unit :=
  try_except (send DeleteMany delete_many ;;; ret tt) is_Exception (ret tt).

End WithBackend.

Arguments world St : clear implicits.
Arguments M St A : clear implicits.

End Store.

(** ** rag_chain.py *)

Module Rag.

(** What the retrieval path reads of [RAGSystem]: [self.config]; its
    [self.vector_store] is the [Store.world] the methods run in.  The
    class has no other state that a query or a clear touches. *)
Record RAGSystem : Type := mkRAGSystem {
  top_k_results : Z
}.

(** The [CustomRetriever] of [_create_retriever]. *)
Record CustomRetriever : Type := mkCustomRetriever {
  k : Z
}.

Definition _create_retriever (self : RAGSystem) : CustomRetriever :=
  mkCustomRetriever (top_k_results self).

Section WithBackend.

Context {St : Type} {B : Store.Backend St}.

Definition get_relevant_documents (self : CustomRetriever) (query : string)
  : Store.M St (list Store.Document) :=
  Store.similarity_search query (k self).

Definition clear_database (self : RAGSystem) : Store.M St unit :=
  Store.delete_all.

End WithBackend.

End Rag.

(** ** A result cache beside the system

[rag_chain.py] does not import [cache_manager]: a [RAGSystem] holds no
[QueryCache], and a cache of retrieved documents is an object of its own
next to it.  A method of the system works on [self.vector_store] and
leaves that object as it is. *)

Module Program.

Section WithBackend.

Context {St : Type}.

Record state : Type := mkState {
  query_cache : Cache.QueryCache (list Store.Document);
  store : Store.world St
}.

Context {B : Store.Backend St}.

(** A method of [RAGSystem] run in a program state. *)
Definition of_system {A : Type} (m : Store.M St A) (p : state)
  : result A * state :=
  (fst (m (store p)), mkState (query_cache p) (snd (m (store p)))).

Definition clear_database (self : Rag.RAGSystem)
  : state -> result unit * state :=
  of_system (Rag.clear_database self).


(** [get(query, top_k)] on the cache, at the clock reading [now]. *)
Definition cache_get (now : Q) (query : string) (top_k : Z) (p : state)
  : option (list Store.Document) * state :=
  (fst (Cache.get now query top_k (query_cache p)),
   mkState (snd (Cache.get now query top_k (query_cache p))) (store p)).

End WithBackend.

Arguments state St : clear implicits.

End Program.

(** ** Simulated collaborators

An in-memory collection and a deterministic embedding stub with
switchable failures, for running the store on concrete inputs. *)

Module Sim.

Import Store.

Record sim : Type := mkSim {
  stored : list doc_dict;
  (** the provider error of the embedding function, if it is down *)
  embed_error : option exn;
  (** the error of [insert_many], if the bulk path fails *)
  bulk_error : option exn;
  (** the ids [insert_one] refuses *)
  rejected : list string;
  vector_error : option exn;
  text_error : option exn;
  delete_error : option exn
}.

Definition healthy (docs : list doc_dict) : sim :=
  mkSim docs None None [] None None None.

Definition with_stored (docs : list doc_dict) (s : sim) : sim :=
  mkSim docs (embed_error s) (bulk_error s) (rejected s) (vector_error s)
        (text_error s) (delete_error s).

Definition embed (text : string) : vector :=
  [inject_Z (Z.of_nat (String.length text))].

Definition failing {A : Type} (err : option exn) (ok : result A * sim)
           (s : sim) : result A * sim :=
  match err with
  | Some e => (Raise e, s)
  | None => ok
  end.

Definition top (k : Z) (score : option value) (s : sim) : list hit :=
  map (fun d => mkHit (Some (content d)) (Some (doc_metadata d)) score)
      (firstn (Z.to_nat k) (stored s)).

#[global] Instance sim_backend : Backend sim := {
  hash := fun text => Z.of_nat (String.length text);
  embed_documents := fun texts s =>
    failing (embed_error s) (Ok (map embed texts), s) s;
  embed_query := fun q s => failing (embed_error s) (Ok (embed q), s) s;
  insert_many := fun docs s =>
    failing (bulk_error s) (Ok tt, with_stored (stored s ++ docs) s) s;
  insert_one := fun doc s =>
    if existsb (String.eqb (_id doc)) (rejected s)
    then (Raise (Exception "WriteError"), s)
    else (Ok tt, with_stored (stored s ++ [doc]) s);
  aggregate := fun v k s =>
    failing (vector_error s) (Ok (top k (Some (VNum 1)) s), s) s;
  find_text := fun q k s =>
    failing (text_error s) (Ok (top k None s), s) s;
  delete_many := fun s =>
    failing (delete_error s) (Ok (Py.len (stored s)), with_stored [] s) s
}.

Definition start (s : sim) : world sim := mkWorld s [].

Definition doc (text : string) : Document := mkDocument text [].

Definition sky : doc_dict :=
  mkDocDict "t1" "The sky is blue." [("source", VStr "t1")]%string
            (embed "The sky is blue.").

(** Five chunks; the bulk insert fails and two single inserts fail. *)
Definition five : list Document :=
  [doc "alpha"; doc "beta"; doc "gamma"; doc "delta"; doc "epsilon"]%string.

Definition two_of_five_rejected : sim :=
  mkSim [] None (Some (Exception "BulkWriteError"))
        ["doc_1_4"; "doc_3_5"]%string None None None.

End Sim.

(** ** The specification's statements about the retrieval path, as
    predicates on runs of the code *)

Module Claims.

Import Store.

Section WithBackend.

Context {St : Type} {B : Backend St}.

(** A second retrieve with the same arguments sends no request at all:
    it is served from a cache. *)
Definition second_retrieve_served_from_cache
           (r : Rag.RAGSystem) (query : string) (w : world St) : Prop :=
  let retriever := Rag._create_retriever r in
  let w1 := snd (Rag.get_relevant_documents retriever query w) in
  let w2 := snd (Rag.get_relevant_documents retriever query w1) in
  calls w2 = calls w1.

(** After a reset, a retrieve finds no documents in the store. *)
Definition reset_leaves_nothing_to_find
           (r : Rag.RAGSystem) (query : string) (w : world St) : Prop :=
  let w1 := snd (Rag.clear_database r w) in
  fst (Rag.get_relevant_documents (Rag._create_retriever r) query w1)
  = Ok [].


(** [similarity_search] does not raise to its caller. *)
Definition search_never_raises (query : string) (k : Z) (w : world St)
  : Prop :=
  exists docs, fst (similarity_search query k w) = Ok docs.

End WithBackend.

(** The hit rate is the number [hits / (hits + misses)], or 0 when no
    request has been made. *)
Definition hit_rate_is_ratio {A : Type} (c : Cache.QueryCache A) : Prop :=
  Cache.hit_rate c
  = if Cache.hits c + Cache.misses c >? 0
    then Py.int_truediv (Cache.hits c) (Cache.hits c + Cache.misses c)
    else S754_zero false.

End Claims.

(** ** Concrete runs used below *)

Module Scenario.

Import Store.

(** A cache of capacity 2 and three insertions at times 1, 2 and 3. *)
Definition three_puts : list (Cache.call unit) :=
  [Cache.CallPut 1 "a" tt 5 None;
   Cache.CallPut 2 "b" tt 5 None;
   Cache.CallPut 3 "c" tt 5 None]%string.

Definition full : Cache.QueryCache unit :=
  Cache.run (firstn 2 three_puts) (Cache.__init__ 2 3600).



Definition fresh : Cache.QueryCache unit := Cache.__init__ 2 3600.

(** The floats [0.1] and [1.1]: the binary64 values nearest to 1/10 and
    to 11/10. *)
Definition tenth : Q := 3602879701896397 # 36028797018963968.
Definition eleven_tenths : Q := 2476979795053773 # 2251799813685248.

(** One entry stored at the clock reading [0.1] with a time-to-live of 1. *)
Definition stored_at_tenth : Cache.QueryCache unit :=
  snd (Cache.put tenth "sky" tt 5 (Some 1%Q) (Cache.__init__ 2 3600)).

Definition tenth_entry : Cache.CacheEntry unit := Cache.mkCacheEntry tt tenth 1.

(** Pairs of binary64 values, as mantissa and exponent. *)
Definition float_pairs : list (Py.float * Py.float) :=
  [(S754_finite false 4953959590107546 (-52),
    S754_finite false 7205759403792794 (-56));
   (S754_finite false 5404319552844595 (-54),
    S754_finite false 7205759403792794 (-56));
   (S754_finite false 7130316200103567 (-22),
    S754_finite false 7130316200099373 (-22));
   (S754_finite false 4503599627370497 1,
    S754_finite false 4503599627370496 (-52));
   (S754_finite false 4503599627370498 1,
    S754_finite false 4503599627370496 (-52));
   (S754_finite false 4503599627370496 (-52),
    S754_finite false 6004799503160661 (-54));
   (S754_finite false 3 (-1074),
    S754_finite false 5 (-1074));
   (S754_finite false 4503599627370496 (-1074),
    S754_finite false 4503599627370495 (-1074));
   (S754_finite false 7130316200103567 (-22),
    S754_finite true 7205759403792794 (-56))].



Definition even_counters : Cache.QueryCache unit :=
  Cache.mkQueryCache [] 1000 3600 1 1.

Definition rag : Rag.RAGSystem := Rag.mkRAGSystem 1.

Definition sky_world : world Sim.sim := Sim.start (Sim.healthy [Sim.sky]).

Definition provider_down : world Sim.sim :=
  Sim.start (Sim.mkSim [Sim.sky] (Some (Exception "ProviderError"))
                       None [] None None None).

Definition index_missing : world Sim.sim :=
  Sim.start (Sim.mkSim [Sim.sky] None None []
                       (Some (Exception "OperationFailure")) None None).

Definition interrupted : world Sim.sim :=
  Sim.start (Sim.mkSim [Sim.sky] None None []
                       (Some (BaseException "KeyboardInterrupt")) None None).

Definition both_searches_down : world Sim.sim :=
  Sim.start (Sim.mkSim [Sim.sky] None None []
                       (Some (Exception "OperationFailure"))
                       (Some (Exception "OperationFailure")) None).

(** A world after the query has been embedded. *)
Definition embedded (q : string) (w : world Sim.sim) : world Sim.sim :=
  mkWorld (state w) (calls w ++ [EmbedQuery q]).

Definition delete_refused : world Sim.sim :=
  Sim.start (Sim.mkSim [Sim.sky] None None [] None None
                       (Some (Exception "OperationFailure"))).

(** The documents retrieved for ["sky color"] are in a cache since time
    0, and the collection holds the document they came from. *)
Definition sky_cached : Program.state Sim.sim :=
  Program.mkState
    (snd (Cache.put 0 "sky color" [Sim.doc "The sky is blue."] 1 None
                    (Cache.__init__ 1000 3600)))
    sky_world.

End Scenario.

(** ** Counting the lookups of a run *)

Module Count.

(** The number of [get] calls since the last [clear], starting from [n]. *)
Fixpoint gets_since_clear {A : Type} (os : list (Cache.call A)) (n : Z) : Z :=
  match os with
  | [] => n
  | Cache.CallGet _ _ _ :: r => gets_since_clear r (n + 1)
  | Cache.CallClear :: r => gets_since_clear r 0
  | _ :: r => gets_since_clear r n
  end.

End Count.

(** ** config.py *)

Module Conf.

Record Config : Type := mkConfig {
  engine : string;
  google_api_key : option string;
  openai_api_key : option string;
  cosmos_connection_string : string;
  cosmos_database_name : string;
  cosmos_collection_name : string;
  cosmos_vector_index_name : string;
  chunk_size : Z;
  chunk_overlap : Z;
  embedding_dimension : Z;
  top_k_results : Z;
  google_llm_model : string;
  google_embedding_model : string;
  openai_llm_model : string;
  openai_embedding_model : string
}.

(** How [validate] ends: it returns, or raises [ValueError(message)]. *)
Inductive outcome : Type :=
| Returns
| ValueError (message : string).

(** Truth value of a [str]. *)
Definition nonempty (s : string) : bool := negb (String.eqb s EmptyString).

(** Truth value of an [Optional[str]]. *)
Definition truthy (o : option string) : bool :=
  match o with
  | Some s => nonempty s
  | None => false
  end.

Definition validate (self : Config) : outcome :=
  if negb (nonempty (cosmos_connection_string self)) then
    ValueError "COSMOS_CONNECTION_STRING is required"
  else if String.eqb (engine self) "google"
          && negb (truthy (google_api_key self)) then
    ValueError "GOOGLE_API_KEY is required when using Google engine"
  else if String.eqb (engine self) "openai"
          && negb (truthy (openai_api_key self)) then
    ValueError "OPENAI_API_KEY is required when using OpenAI engine"
  else if negb (existsb (String.eqb (engine self)) ["google"; "openai"]%string)
  then ValueError "ENGINE must be either 'google' or 'openai'"
  else Returns.

End Conf.

(** ** rag_chain.py: the choice of models *)

Module Models.

(** The constructor calls of the language models, with their arguments. *)
Inductive llm : Type :=
| GoogleGenerativeAI (model : string) (google_api_key : option string)
                     (temperature : Q) (max_output_tokens : Z)
| ChatOpenAI (model : string) (openai_api_key : option string)
             (temperature : Q) (streaming : bool).

Inductive embeddings : Type :=
| GoogleGenerativeAIEmbeddings (model : string) (google_api_key : option string)
| OpenAIEmbeddings (model : string) (openai_api_key : option string).

Definition _init_google_models (config : Conf.Config) : llm * embeddings :=
  (GoogleGenerativeAI (Conf.google_llm_model config)
                      (Conf.google_api_key config) (7 # 10) 2048,
   GoogleGenerativeAIEmbeddings (Conf.google_embedding_model config)
                                (Conf.google_api_key config)).

Definition _init_openai_models (config : Conf.Config) : llm * embeddings :=
  (ChatOpenAI (Conf.openai_llm_model config) (Conf.openai_api_key config)
              (7 # 10) true,
   OpenAIEmbeddings (Conf.openai_embedding_model config)
                    (Conf.openai_api_key config)).

Definition _initialize_models (config : Conf.Config) : llm * embeddings :=
  if String.eqb (Conf.engine config) "google"
  then _init_google_models config
  else _init_openai_models config.

(** The API key a model is constructed with. *)
Definition llm_key (m : llm) : option string :=
  match m with
  | GoogleGenerativeAI _ key _ _ => key
  | ChatOpenAI _ key _ _ => key
  end.

Definition embeddings_key (m : embeddings) : option string :=
  match m with
  | GoogleGenerativeAIEmbeddings _ key => key
  | OpenAIEmbeddings _ key => key
  end.

End Models.

(** ** vector_store_manager.py: connection and index *)

Module Conn.

Inductive request : Type :=
| NewClient (connection_string : string)
| Ping
| ListIndexes
| CreateIndex (keys : list (string * string)) (name : string).

(** The pymongo calls of [_connect] and [_setup_vector_index] over a state
    [St] of the server, and the class test of an [except] clause. *)
Class Server (St : Type) : Type := {
  (** [MongoClient(connection_string)] *)
  mongo_client : string -> St -> result unit * St;
  (** [client.admin.command('ping')] *)
  ping : St -> result unit * St;
  (** [list(collection.list_indexes())] *)
  list_indexes : St -> result (list (Py.dict Store.value)) * St;
  (** [collection.create_index(keys, name=name)] *)
  create_index : list (string * string) -> string -> St -> result unit * St;
  (** [isinstance(e, cls)] for the pymongo error classes *)
  isinstance : exn -> string -> bool
}.

(** The attributes [__init__] and [_connect] set; [None] until then. *)
Record CosmosDBVectorStore : Type := mkStore {
  client : option string;
  db : option string;
  collection : option (string * string)
}.

Section WithServer.

Context {St : Type} {Srv : Server St}.

Record world : Type := mkWorld {
  self : CosmosDBVectorStore;
  server : St;
  requests : list request
}.

Definition M (A : Type) : Type := world -> result A * world.

Definition ret {A : Type} (a : A) : M A := fun w => (Ok a, w).

Definition bind {A C : Type} (m : M A) (f : A -> M C) : M C :=
  fun w =>
    match m w with
    | (Ok a, w') => f a w'
    | (Raise e, w') => (Raise e, w')
    end.

Definition raise {A : Type} (e : exn) : M A := fun w => (Raise e, w).

Definition lift {A : Type} (r : result A) : M A := fun w => (r, w).

(** [try: m  except cls as e: handler e] *)
Definition try_except {A : Type} (m : M A) (cls : string)
           (handler : exn -> M A) : M A :=
  fun w =>
    match m w with
    | (Ok a, w') => (Ok a, w')
    | (Raise e, w') =>
        if isinstance e cls then handler e w' else (Raise e, w')
    end.

Definition send {A : Type} (r : request) (f : St -> result A * St) : M A :=
  fun w =>
    let (x, s') := f (server w) in
    (x, mkWorld (self w) s' (requests w ++ [r])).

Definition assign (f : CosmosDBVectorStore -> CosmosDBVectorStore) : M unit :=
  fun w => (Ok tt, mkWorld (f (self w)) (server w) (requests w)).

Notation "x <- m ;; k" := (bind m (fun x => k))
  (at level 61, m at next level, right associativity).
Notation "m ;;; k" := (bind m (fun _ => k))
  (at level 61, right associativity).

Definition _connect (config : Conf.Config) : M unit :=
  try_except
    (send (NewClient (Conf.cosmos_connection_string config))
          (mongo_client (Conf.cosmos_connection_string config)) ;;;
     assign (fun s => mkStore (Some (Conf.cosmos_connection_string config))
                              (db s) (collection s)) ;;;
     send Ping ping ;;;
     assign (fun s => mkStore (client s)
                              (Some (Conf.cosmos_database_name config))
                              (collection s)) ;;;
     assign (fun s => mkStore (client s) (db s)
                              (Some (Conf.cosmos_database_name config,
                                     Conf.cosmos_collection_name config))))
    "ConnectionFailure"
    (fun e => raise e).

(** [idx['name'] for idx in indexes] *)
Fixpoint index_names (indexes : list (Py.dict Store.value))
  : result (list Store.value) :=
  match indexes with
  | [] => Ok []
  | idx :: rest =>
      match Py.dict_get "name" idx with
      | None => Raise (Exception "KeyError")
      | Some name =>
          match index_names rest with
          | Raise e => Raise e
          | Ok names => Ok (name :: names)
          end
      end
  end.

(** [name == v] for a [str] [name]. *)
Definition is_name (name : string) (v : Store.value) : bool :=
  match v with
  | Store.VStr s => String.eqb name s
  | _ => false
  end.

Definition _setup_vector_index (config : Conf.Config) : M unit :=
  let name := Conf.cosmos_vector_index_name config in
  try_except
    (fun w =>
       match collection (self w) with
       | None => (Raise (Exception "AttributeError"), w)
       | Some _ =>
           (indexes <- send ListIndexes list_indexes ;;
            names <- lift (index_names indexes) ;;
            if negb (existsb (is_name name) names)
            then send (CreateIndex [("embedding", "cosmosSearch")]%string name)
                      (create_index [("embedding", "cosmosSearch")]%string name)
            else ret tt) w
       end)
    "OperationFailure"
    (fun _ => ret tt).

(** [CosmosDBVectorStore(config, embeddings)] *)
Definition __init__ (config : Conf.Config) : M unit :=
  assign (fun _ => mkStore None None None) ;;;
  _connect config ;;;
  _setup_vector_index config.

End WithServer.

Arguments world St : clear implicits.
Arguments M St A : clear implicits.

End Conn.

(** ** document_processor.py *)

Module Processor.

(** The [RecursiveCharacterTextSplitter] the processor is built with. *)
Class TextSplitter : Type := {
  split_text : string -> list string;
  split_documents : list Store.Document -> list Store.Document
}.

Section WithSplitter.

Context {T : TextSplitter}.

(** The loop over [enumerate(chunks)], from index [i]. *)
Fixpoint chunk_documents (metadata : Py.dict Store.value) (total : Z) (i : Z)
         (chunks : list string) : list Store.Document :=
  match chunks with
  | [] => []
  | chunk :: rest =>
      Store.mkDocument chunk
        (Py.dict_set "total_chunks" (Store.VInt total)
           (Py.dict_set "chunk_index" (Store.VInt i) metadata))
      :: chunk_documents metadata total (i + 1) rest
  end.

Definition process_text (text : string)
           (metadata : option (Py.dict Store.value)) : list Store.Document :=
  if String.eqb text EmptyString then []
  else
    let metadata := Store.or_default metadata [] in
    let chunks := split_text text in
    chunk_documents metadata (Py.len chunks) 0 chunks.

Definition process_documents (documents : list Store.Document)
  : list Store.Document :=
  flat_map (fun doc => split_documents [doc]) documents.

End WithSplitter.

End Processor.

(** ** rag_chain.py: ingestion *)

Module Ingest.

Section WithCollaborators.

Context {St : Type} {B : Store.Backend St} {T : Processor.TextSplitter}.

Definition add_text (text : string) (metadata : option (Py.dict Store.value))
  : Store.M St (list string) :=
  Store.add_documents (Processor.process_text text metadata) None.

Definition add_documents (documents : list Store.Document)
  : Store.M St (list string) :=
  Store.add_documents (Processor.process_documents documents) None.

End WithCollaborators.

End Ingest.

(** ** main.py: reading a text from the console *)

Module Main.

(** [lines and lines[-1] == ""] *)
Definition ends_blank (lines : list string) : bool :=
  match lines with
  | [] => false
  | _ => String.eqb (last lines EmptyString) EmptyString
  end.

(** The [while True] loop of [add_text_interactive] over the lines still
    to come from [input()]; the end of the input raises [EOFError]. *)
Fixpoint read_lines (input : list string) (lines : list string)
  : result (list string) * list string :=
  match input with
  | [] => (Raise (Exception "EOFError"), [])
  | line :: rest =>
      if String.eqb line EmptyString && ends_blank lines
      then (Ok lines, rest)
      else read_lines rest (lines ++ [line])
  end.

Definition newline : string := String (Py.chr 10) EmptyString.

(** [text = "\n".join(lines[:-1])] after the loop. *)
Definition read_text (input : list string) : result string * list string :=
  match read_lines input [] with
  | (Ok lines, rest) => (Ok (String.concat newline (removelast lines)), rest)
  | (Raise e, rest) => (Raise e, rest)
  end.

(** No two empty lines in a row. *)
Fixpoint no_blank_pair (l : list string) : bool :=
  match l with
  | a :: r =>
      match r with
      | b :: _ =>
          negb (String.eqb a EmptyString && String.eqb b EmptyString)
          && no_blank_pair r
      | [] => true
      end
  | [] => true
  end.

End Main.

(** ** More simulated collaborators and concrete runs *)

Module Cases.

Import Store.

(** A collection whose searches return one result without content. *)
Record broken : Type := mkBroken { base : Sim.sim }.

Definition on_base {A : Type} (f : Sim.sim -> result A * Sim.sim) (b : broken)
  : result A * broken :=
  let (r, s) := f (base b) in (r, mkBroken s).

#[global] Instance broken_backend : Backend broken := {
  hash := hash (St:=Sim.sim);
  embed_documents := fun texts => on_base (embed_documents texts);
  embed_query := fun q => on_base (embed_query q);
  insert_many := fun docs => on_base (insert_many docs);
  insert_one := fun doc => on_base (insert_one doc);
  aggregate := fun v k b => (Ok [mkHit None None None], b);
  find_text := fun q k b => (Ok [mkHit None None None], b);
  delete_many := on_base delete_many
}.

Definition broken_world : world broken :=
  mkWorld (mkBroken (Sim.healthy [Sim.sky])) [].

Definition empty_world : world Sim.sim := Sim.start (Sim.healthy []).

Definition embedding_down : world Sim.sim :=
  Sim.start (Sim.mkSim [] (Some (Exception "ProviderError"))
                       None [] None None None).

Definition six_ids : list string := ["a"; "b"; "c"; "d"; "e"; "f"]%string.

(** A server that can be unreachable, slow to answer or short of rights. *)
Record server : Type := mkServer {
  reachable : bool;
  answers : bool;
  indexes : list (Py.dict value);
  may_list : bool;
  may_create : bool
}.

#[global] Instance server_sim : Conn.Server server := {
  Conn.mongo_client := fun cs s =>
    if reachable s then (Ok tt, s)
    else (Raise (Exception "ConfigurationError"), s);
  Conn.ping := fun s =>
    if answers s then (Ok tt, s)
    else (Raise (Exception "ConnectionFailure"), s);
  Conn.list_indexes := fun s =>
    if may_list s then (Ok (indexes s), s)
    else (Raise (Exception "OperationFailure"), s);
  Conn.create_index := fun keys name s =>
    if may_create s
    then (Ok tt, mkServer (reachable s) (answers s)
                   (indexes s ++ [[("name", VStr name)]%string])
                   (may_list s) (may_create s))
    else (Raise (Exception "OperationFailure"), s);
  Conn.isinstance := fun e cls =>
    match e with
    | Exception c => String.eqb c cls
    | BaseException _ => false
    end
}.

Definition default_index : Py.dict value := [("name", VStr "_id_")]%string.

Definition fresh_store (s : server) : Conn.world server :=
  Conn.mkWorld (Conn.mkStore None None None) s [].

Definition connected (s : server) : Conn.world server :=
  Conn.mkWorld
    (Conn.mkStore (Some "mongodb://host"%string)
                  (Some "rag_database"%string)
                  (Some ("rag_database", "documents")%string)) s [].

Definition config : Conf.Config :=
  Conf.mkConfig "google" (Some "g-key"%string) None "mongodb://host"
                "rag_database" "documents" "vector_index" 1000 200 768 5
                "gemini-pro" "models/embedding-001" "gpt-3.5-turbo"
                "text-embedding-ada-002".

(** A splitter that keeps a short text whole and drops a blank one. *)
Definition one_chunk (text : string) : list string :=
  if String.eqb (Py.strip text) EmptyString then [] else [text].

Definition whole_chunks : Processor.TextSplitter := {|
  Processor.split_text := one_chunk;
  Processor.split_documents :=
    flat_map (fun d => map (fun c => mkDocument c (metadata d))
                           (one_chunk (page_content d)))
|}.

Definition up : server := mkServer true true [default_index] true true.

Definition unreachable : server := mkServer false true [default_index] true true.

Definition silent : server := mkServer true false [default_index] true true.

Definition no_listing : server := mkServer true true [default_index] false true.

Definition read_only : server := mkServer true true [default_index] true false.

Definition sky_hit_documents : list Document :=
  [mkDocument "The sky is blue."
     [("source", VStr "t1"); ("score", VNum 1)]]%string.

Definition typed : list string :=
  ["The sky is blue."; ""; "Grass is green."]%string.

End Cases.

(** * Properties *)

(** ** The library model agrees with CPython on sample inputs *)

Example md5_of_empty_string :
  Py.md5_hexdigest [] = "d41d8cd98f00b204e9800998ecf8427e"%string.
Proof. vm_compute. reflexivity. Qed.

Example key_of_hello_5 :
  Cache._generate_key "hello" 5 = "4a26e3e009ca4b726c665501d1b3d83f"%string.
Proof. vm_compute. reflexivity. Qed.

Example format_of_a_third :
  Py.format_2f (Py.float_mul_int (Py.int_truediv 1 3) 100) = "33.33"%string.
Proof. vm_compute. reflexivity. Qed.

Example format_of_a_tie :
  Py.format_2f (Py.float_mul_int (Py.int_truediv 3 800) 100) = "0.38"%string.
Proof. vm_compute. reflexivity. Qed.

(** The key depends on the query through its normal form only. *)
Lemma generate_key_normal_form (q q' : string) (k : Z) :
  Py.strip (Py.lower q) = Py.strip (Py.lower q') ->
  Cache._generate_key q k = Cache._generate_key q' k.
Proof. intros H. unfold Cache._generate_key. now rewrite H. Qed.

(** From here on the digest is computed on closed inputs only. *)
Arguments Cache._generate_key : simpl never.
Opaque Cache._generate_key.

(** ** Insertion-ordered dictionaries *)

Section DictFacts.

Context {V : Type}.
Implicit Types (d : Py.dict V) (k : string) (v : V).

Lemma dict_get_set_same k v d : Py.dict_get k (Py.dict_set k v d) = Some v.
Proof.
  induction d as [|[k' v'] r IH]; simpl.
  - now rewrite String.eqb_refl.
  - destruct (String.eqb k k') eqn:E; simpl; rewrite ?String.eqb_refl, ?E; auto.
Qed.

Lemma dict_get_set_other k k' v d :
  k' <> k -> Py.dict_get k' (Py.dict_set k v d) = Py.dict_get k' d.
Proof.
  intros Hne. apply String.eqb_neq in Hne.
  induction d as [|[k0 v0] r IH]; simpl.
  - now rewrite Hne.
  - destruct (String.eqb k k0) eqn:E; simpl.
    + apply String.eqb_eq in E. subst k0. now rewrite Hne.
    + now rewrite IH.
Qed.

Lemma dict_get_in_keys k d :
  In k (Py.keys d) -> exists v, Py.dict_get k d = Some v.
Proof.
  induction d as [|[k' v'] r IH]; simpl; [tauto|].
  intros [->|Hin].
  - rewrite String.eqb_refl. eauto.
  - destruct (String.eqb k k'); eauto.
Qed.

Lemma dict_get_some_in_keys k v d :
  Py.dict_get k d = Some v -> In k (Py.keys d).
Proof.
  induction d as [|[k' v'] r IH]; simpl; [discriminate|].
  destruct (String.eqb k k') eqn:E.
  - apply String.eqb_eq in E. auto.
  - auto.
Qed.

Lemma dict_get_none_not_in k d :
  existsb (String.eqb k) (Py.keys d) = false -> Py.dict_get k d = None.
Proof.
  induction d as [|[k' v'] r IH]; simpl; [reflexivity|].
  destruct (String.eqb k k'); simpl; [discriminate | exact IH].
Qed.

Lemma length_dict_set_le k v d :
  (List.length (Py.dict_set k v d) <= S (List.length d))%nat.
Proof.
  induction d as [|[k' v'] r IH]; simpl; [lia|].
  destruct (String.eqb k k'); simpl; lia.
Qed.

Lemma length_dict_del_le k d :
  (List.length (Py.dict_del k d) <= List.length d)%nat.
Proof.
  induction d as [|[k' v'] r IH]; simpl; [lia|].
  destruct (String.eqb k k'); simpl; lia.
Qed.

Lemma length_dict_del k v d :
  Py.dict_get k d = Some v ->
  S (List.length (Py.dict_del k d)) = List.length d.
Proof.
  induction d as [|[k' v'] r IH]; simpl; [discriminate|].
  destruct (String.eqb k k'); simpl; auto.
Qed.

Lemma dict_get_del_other k k' d :
  k' <> k -> Py.dict_get k' (Py.dict_del k d) = Py.dict_get k' d.
Proof.
  intros Hne. apply String.eqb_neq in Hne.
  induction d as [|[k0 v0] r IH]; simpl; [reflexivity|].
  destruct (String.eqb k k0) eqn:E; simpl.
  - apply String.eqb_eq in E. subst k0. now rewrite Hne.
  - now rewrite IH.
Qed.

Lemma dict_get_del_same k d :
  Py.unique_keys d = true -> Py.dict_get k (Py.dict_del k d) = None.
Proof.
  induction d as [|[k' v'] r IH]; simpl; [reflexivity|].
  intros Hu. apply andb_true_iff in Hu. destruct Hu as [Hn Hu].
  destruct (String.eqb k k') eqn:E; simpl.
  - apply String.eqb_eq in E. subst k'.
    apply dict_get_none_not_in. now apply negb_true_iff.
  - rewrite E. auto.
Qed.

Lemma existsb_keys_del k k' d :
  existsb (String.eqb k') (Py.keys d) = false ->
  existsb (String.eqb k') (Py.keys (Py.dict_del k d)) = false.
Proof.
  induction d as [|[k0 v0] r IH]; simpl; [reflexivity|].
  intros H. apply orb_false_iff in H. destruct H as [H1 H2].
  destruct (String.eqb k k0); simpl; [exact H2|].
  rewrite H1. auto.
Qed.

Lemma existsb_keys_set k k' v d :
  String.eqb k' k = false ->
  existsb (String.eqb k') (Py.keys d) = false ->
  existsb (String.eqb k') (Py.keys (Py.dict_set k v d)) = false.
Proof.
  intros Hne.
  induction d as [|[k0 v0] r IH]; simpl.
  - intros _. now rewrite Hne.
  - intros H. apply orb_false_iff in H. destruct H as [H1 H2].
    destruct (String.eqb k k0) eqn:E; simpl.
    + now rewrite Hne, H2.
    + rewrite H1. auto.
Qed.

Lemma unique_keys_del k d :
  Py.unique_keys d = true -> Py.unique_keys (Py.dict_del k d) = true.
Proof.
  induction d as [|[k' v'] r IH]; simpl; [reflexivity|].
  intros Hu. apply andb_true_iff in Hu. destruct Hu as [Hn Hu].
  destruct (String.eqb k k'); simpl; [exact Hu|].
  apply andb_true_iff. split; [|auto].
  apply negb_true_iff. apply existsb_keys_del. now apply negb_true_iff.
Qed.

Lemma unique_keys_set k v d :
  Py.unique_keys d = true -> Py.unique_keys (Py.dict_set k v d) = true.
Proof.
  induction d as [|[k' v'] r IH]; simpl; [reflexivity|].
  intros Hu. apply andb_true_iff in Hu. destruct Hu as [Hn Hu].
  destruct (String.eqb k k') eqn:E; simpl.
  - apply String.eqb_eq in E. subst k'. now rewrite Hn, Hu.
  - apply andb_true_iff. split; [|auto].
    apply negb_true_iff. apply existsb_keys_set.
    + now rewrite String.eqb_sym.
    + now apply negb_true_iff.
Qed.

End DictFacts.

(** ** [min] with a key function *)

Lemma Qltb_true_iff (x y : Q) : Py.Qltb x y = true <-> (x < y)%Q.
Proof.
  unfold Py.Qltb. rewrite Qlt_alt.
  destruct (x ?= y)%Q; split; congruence.
Qed.

Lemma Qltb_false_iff (x y : Q) : Py.Qltb x y = false <-> (y <= x)%Q.
Proof.
  rewrite <- not_true_iff_false, Qltb_true_iff. split.
  - apply Qnot_lt_le.
  - apply Qle_not_lt.
Qed.

Lemma min_by_fold {K : Type} (key : K -> Q) (l : list K) (best : K) :
  let m := fold_left (fun b y => if Py.Qltb (key y) (key b) then y else b)
                     l best in
  (m = best \/ In m l)
  /\ (key m <= key best)%Q
  /\ forall x, In x l -> (key m <= key x)%Q.
Proof.
  revert best. induction l as [|y r IH]; intros best; simpl.
  - repeat split; [now left | apply Qle_refl | tauto].
  - destruct (Py.Qltb (key y) (key best)) eqn:E.
    + apply Qltb_true_iff in E.
      destruct (IH y) as (Hin & Hle & Hall).
      split; [|split].
      * destruct Hin as [->|Hin]; auto.
      * eapply Qle_trans; [exact Hle | now apply Qlt_le_weak].
      * intros x [<-|Hx]; auto.
    + apply Qltb_false_iff in E.
      destruct (IH best) as (Hin & Hle & Hall).
      split; [|split].
      * destruct Hin as [->|Hin]; auto.
      * exact Hle.
      * intros x [<-|Hx]; auto. eapply Qle_trans; eauto.
Qed.

Lemma min_by_spec {K : Type} (key : K -> Q) (l : list K) (m : K) :
  Py.min_by key l = Some m ->
  In m l /\ forall x, In x l -> (key m <= key x)%Q.
Proof.
  destruct l as [|x0 r]; simpl; [discriminate|].
  intros H. injection H as <-.
  destruct (min_by_fold key r x0) as (Hin & Hle & Hall).
  split.
  - destruct Hin as [->|Hin]; auto.
  - intros x [<-|Hx]; auto.
Qed.

Lemma min_by_nonempty {K : Type} (key : K -> Q) (l : list K) :
  l <> [] -> exists m, Py.min_by key l = Some m.
Proof. destruct l; [congruence | simpl; eauto]. Qed.

(** ** Rounding to 53 bits *)

Lemma rhe_bounds (n d : Z) : 0 < d ->
  2 * d * Py.round_half_even_div n d <= 2 * n + d /\
  2 * n - d <= 2 * d * Py.round_half_even_div n d.
Proof.
  intros Hd. unfold Py.round_half_even_div.
  pose proof (Z.div_mod n d ltac:(lia)) as Hdm.
  pose proof (Z.mod_pos_bound n d Hd) as Hb.
  destruct (Z.compare_spec (2 * (n mod d)) d);
    [destruct (Z.even (n / d))| |]; nia.
Qed.

Lemma rne_ge (k : Z) (q : Q) :
  (inject_Z k <= q)%Q -> k <= Py.round_half_even q.
Proof.
  destruct q as [n d]. unfold Qle, Py.round_half_even.
  cbn [Qnum Qden inject_Z]. intros H.
  pose proof (rhe_bounds n (Zpos d) ltac:(lia)) as [_ Hb]. nia.
Qed.

Lemma rne_le (k : Z) (q : Q) :
  (q <= inject_Z k)%Q -> Py.round_half_even q <= k.
Proof.
  destruct q as [n d]. unfold Qle, Py.round_half_even.
  cbn [Qnum Qden inject_Z]. intros H.
  pose proof (rhe_bounds n (Zpos d) ltac:(lia)) as [Hb _]. nia.
Qed.


Section Rounding.

Local Open Scope Q_scope.

Lemma two_neq_0 : ~ 2 == 0.
Proof. discriminate. Qed.

Lemma pow2_pos (z : Z) : 0 < 2 ^ z.
Proof. apply Qpower_0_lt. reflexivity. Qed.

Lemma pow2_inject (z : Z) : (0 <= z)%Z -> 2 ^ z == inject_Z (2 ^ z).
Proof. intros Hz. rewrite Zpower_Qpower by exact Hz. reflexivity. Qed.

Lemma pow2_plus (a b : Z) : 2 ^ (a + b) == 2 ^ a * 2 ^ b.
Proof. apply Qpower_plus. discriminate. Qed.

Lemma pow2_le_shift (q : Q) (z b : Z) : 2 ^ (z + b) <= q * 2 ^ b -> 2 ^ z <= q.
Proof.
  rewrite (pow2_plus z b). apply Qmult_le_r, pow2_pos.
Qed.

Lemma pow2_lt_shift (q : Q) (z b : Z) : q * 2 ^ b < 2 ^ (z + b) -> q < 2 ^ z.
Proof.
  rewrite (pow2_plus z b). apply Qmult_lt_r, pow2_pos.
Qed.

Lemma Qnum_pos (q : Q) : 0 < q <-> (0 < Qnum q)%Z.
Proof. unfold Qlt; cbn. rewrite Z.mul_1_r. reflexivity. Qed.

Lemma ilog2_spec (q : Q) :
  0 < q -> 2 ^ Py.ilog2 q <= q /\ q < 2 ^ (Py.ilog2 q + 1).
Proof.
  intros Hq. apply Qnum_pos in Hq. destruct q as [n d]. cbn [Qnum] in Hq.
  unfold Py.ilog2; cbn [Qnum Qden].
  pose proof (Z.log2_spec n Hq) as [Hn1 Hn2].
  pose proof (Z.log2_spec (Zpos d) ltac:(lia)) as [Hd1 Hd2].
  pose proof (Z.log2_nonneg n) as Ha. pose proof (Z.log2_nonneg (Zpos d)) as Hb.
  set (a := Z.log2 n) in *. set (b := Z.log2 (Zpos d)) in *. clearbody a b.
  assert (Hup : n # d < 2 ^ (a - b + 1)).
  { apply (pow2_lt_shift _ _ b).
    replace (a - b + 1 + b)%Z with (Z.succ a) by lia.
    rewrite !pow2_inject by lia. rewrite Qmult_inject_Z_r.
    unfold Qlt; cbn [Qnum Qden inject_Z]. nia. }
  assert (Hlow : 2 ^ (a - b - 1) <= n # d).
  { apply (pow2_le_shift _ _ (Z.succ b)).
    replace (a - b - 1 + Z.succ b)%Z with a by lia.
    rewrite !pow2_inject by lia. rewrite Qmult_inject_Z_r.
    unfold Qle; cbn [Qnum Qden inject_Z]. nia. }
  destruct (Qle_bool (2 ^ (a - b)) (n # d)) eqn:E.
  - apply Qle_bool_iff in E. split; assumption.
  - split; [exact Hlow|].
    replace (a - b - 1 + 1)%Z with (a - b)%Z by lia.
    apply Qnot_le_lt. intros H. apply Qle_bool_iff in H. congruence.
Qed.


Lemma scaled_bounds (q : Q) : 0 < q ->
  (2 ^ 52 <= Py.round_half_even (q * 2 ^ (- (Py.ilog2 q - 52))) <= 2 ^ 53)%Z.
Proof.
  intros Hq. destruct (ilog2_spec q Hq) as [H1 H2].
  set (l := Py.ilog2 q) in *. clearbody l. split.
  - apply rne_ge. rewrite <- pow2_inject by lia.
    replace 52%Z with (l + - (l - 52))%Z at 1 by lia.
    rewrite (pow2_plus l (- (l - 52))).
    apply Qmult_le_compat_r; [exact H1|apply Qlt_le_weak, pow2_pos].
  - apply rne_le. rewrite <- pow2_inject by lia.
    replace 53%Z with (l + 1 + - (l - 52))%Z by lia.
    rewrite (pow2_plus (l + 1) (- (l - 52))).
    apply Qmult_le_compat_r;
      [apply Qlt_le_weak; exact H2|apply Qlt_le_weak, pow2_pos].
Qed.

Lemma round53_pos_bounds (q : Q) : 0 < q ->
  2 ^ Py.ilog2 q <= Py.round53_pos q
  /\ Py.round53_pos q <= 2 ^ (Py.ilog2 q + 1).
Proof.
  intros Hq. pose proof (scaled_bounds q Hq) as [H1 H2]. unfold Py.round53_pos.
  set (m := Py.round_half_even _) in *. clearbody m.
  set (l := Py.ilog2 q). clearbody l. split.
  - replace l with (52 + (l - 52))%Z at 1 by lia.
    rewrite (pow2_plus 52 (l - 52)).
    apply Qmult_le_compat_r; [|apply Qlt_le_weak, pow2_pos].
    rewrite pow2_inject by lia. rewrite <- Zle_Qle. exact H1.
  - replace (l + 1)%Z with (53 + (l - 52))%Z by lia.
    rewrite (pow2_plus 53 (l - 52)).
    apply Qmult_le_compat_r; [|apply Qlt_le_weak, pow2_pos].
    rewrite pow2_inject by lia. rewrite <- Zle_Qle. exact H2.
Qed.

Lemma round53_pos_positive (q : Q) : 0 < q -> 0 < Py.round53_pos q.
Proof.
  intros Hq. eapply Qlt_le_trans; [apply (pow2_pos (Py.ilog2 q))|].
  apply round53_pos_bounds, Hq.
Qed.


Lemma round53_zero (q : Q) : Qnum q = 0%Z -> Py.round53 q = 0.
Proof. unfold Py.round53. intros ->. reflexivity. Qed.

Lemma round53_positive (q : Q) : 0 < q -> Py.round53 q = Py.round53_pos q.
Proof.
  intros H. apply Qnum_pos in H. unfold Py.round53.
  destruct (Qnum q); try lia. reflexivity.
Qed.

Lemma Qnum_neg (q : Q) : q < 0 <-> (Qnum q < 0)%Z.
Proof. unfold Qlt; cbn. rewrite Z.mul_1_r. reflexivity. Qed.

Lemma round53_negative (q : Q) : q < 0 -> Py.round53 q = - Py.round53_pos (- q).
Proof.
  intros H. apply Qnum_neg in H. unfold Py.round53.
  destruct (Qnum q); try lia. reflexivity.
Qed.

Lemma Qopp_pos (q : Q) : q < 0 -> 0 < - q.
Proof. destruct q as [n d]. unfold Qlt; cbn. lia. Qed.

Lemma Qopp_neg (q : Q) : 0 < q -> - q < 0.
Proof. destruct q as [n d]. unfold Qlt; cbn. lia. Qed.

Lemma round53_lt_0 (q : Q) : q < 0 -> Py.round53 q < 0.
Proof.
  intros H. rewrite (round53_negative q H).
  apply Qopp_neg, round53_pos_positive, Qopp_pos, H.
Qed.

Lemma round53_ge_0 (q : Q) : 0 <= q -> 0 <= Py.round53 q.
Proof.
  intros H. destruct (Z.eq_dec (Qnum q) 0) as [E|N].
  - rewrite (round53_zero q E). apply Qle_refl.
  - assert (Hq : 0 < q).
    { apply Qnum_pos. unfold Qle in H; cbn in H. lia. }
    rewrite (round53_positive q Hq). apply Qlt_le_weak, round53_pos_positive, Hq.
Qed.


Lemma ilog2_unique (q : Q) (l : Z) :
  2 ^ l <= q -> q < 2 ^ (l + 1) -> Py.ilog2 q = l.
Proof.
  intros H1 H2.
  assert (Hq : 0 < q) by (eapply Qlt_le_trans; [apply (pow2_pos l)|exact H1]).
  destruct (ilog2_spec q Hq) as [G1 G2].
  assert (A : 2 ^ Py.ilog2 q < 2 ^ (l + 1)) by (eapply Qle_lt_trans; eassumption).
  assert (B : 2 ^ l < 2 ^ (Py.ilog2 q + 1)) by (eapply Qle_lt_trans; eassumption).
  apply Qpower_lt_compat_l_inv in A; [|reflexivity].
  apply Qpower_lt_compat_l_inv in B; [|reflexivity]. lia.
Qed.

Lemma rne_inject (k : Z) (q : Q) : q == inject_Z k -> Py.round_half_even q = k.
Proof.
  intros H. apply Z.le_antisymm.
  - apply rne_le. rewrite H. apply Qle_refl.
  - apply rne_ge. rewrite H. apply Qle_refl.
Qed.

Lemma pow2_cancel (e : Z) : 2 ^ e * 2 ^ (- e) == 1.
Proof.
  rewrite <- (pow2_plus e (- e)). replace (e + - e)%Z with 0%Z by lia. reflexivity.
Qed.

Lemma round53_pos_fixed (m e : Z) :
  (2 ^ 52 <= m <= 2 ^ 53)%Z ->
  Py.round53_pos (inject_Z m * 2 ^ e) == inject_Z m * 2 ^ e.
Proof.
  intros [Hlo Hhi]. destruct (Z.eq_dec m (2 ^ 53)) as [->|Hne].
  - assert (Hl : Py.ilog2 (inject_Z (2 ^ 53) * 2 ^ e) = (53 + e)%Z).
    { apply ilog2_unique.
      - rewrite (pow2_plus 53 e). rewrite (pow2_inject 53) by lia.
        apply Qle_refl.
      - replace (53 + e + 1)%Z with (54 + e)%Z by lia.
        rewrite (pow2_plus 54 e). apply Qmult_lt_compat_r; [apply pow2_pos|].
        reflexivity. }
    unfold Py.round53_pos. rewrite Hl.
    replace (53 + e - 52)%Z with (1 + e)%Z by lia.
    rewrite (rne_inject (2 ^ 52)).
    + rewrite (pow2_plus 1 e). rewrite Qmult_assoc.
      apply Qmult_comp; reflexivity.
    + replace (- (1 + e))%Z with (- 1 + - e)%Z by lia.
      rewrite (pow2_plus (- 1) (- e)).
      transitivity (inject_Z (2 ^ 53) * 2 ^ (-1) * (2 ^ e * 2 ^ (- e)));
        [ring|].
      rewrite pow2_cancel. reflexivity.
  - assert (Hl : Py.ilog2 (inject_Z m * 2 ^ e) = (52 + e)%Z).
    { apply ilog2_unique.
      - rewrite (pow2_plus 52 e).
        apply Qmult_le_compat_r; [|apply Qlt_le_weak, pow2_pos].
        rewrite (pow2_inject 52) by lia. rewrite <- Zle_Qle. exact Hlo.
      - replace (52 + e + 1)%Z with (53 + e)%Z by lia.
        rewrite (pow2_plus 53 e). apply Qmult_lt_compat_r; [apply pow2_pos|].
        rewrite (pow2_inject 53) by lia. rewrite <- Zlt_Qlt. lia. }
    unfold Py.round53_pos. rewrite Hl.
    replace (52 + e - 52)%Z with e by lia.
    rewrite (rne_inject m); [reflexivity|].
    rewrite <- Qmult_assoc, pow2_cancel. ring.
Qed.

Lemma round53_pos_idempotent (q : Q) :
  0 < q -> Py.round53_pos (Py.round53_pos q) == Py.round53_pos q.
Proof.
  intros Hq. unfold Py.round53_pos at 2 3.
  apply round53_pos_fixed, scaled_bounds, Hq.
Qed.

Lemma Qopp_opp (q : Q) : - - q = q.
Proof. destruct q as [n d]. unfold Qopp; cbn. now rewrite Z.opp_involutive. Qed.

(** A value with 53 significant bits is left as it is. *)
Lemma round53_idempotent (q : Q) : Py.round53 (Py.round53 q) == Py.round53 q.
Proof.
  destruct (Qlt_le_dec q 0) as [Hq|Hq].
  - pose proof (round53_lt_0 q Hq) as Hn.
    rewrite (round53_negative _ Hn). rewrite (round53_negative q Hq).
    rewrite Qopp_opp. apply Qopp_comp.
    apply round53_pos_idempotent, Qopp_pos, Hq.
  - destruct (Z.eq_dec (Qnum q) 0) as [E|N].
    + rewrite (round53_zero q E). reflexivity.
    + assert (Hq' : 0 < q).
      { apply Qnum_pos. unfold Qle in Hq; cbn in Hq. lia. }
      rewrite (round53_positive q Hq').
      rewrite (round53_positive _ (round53_pos_positive q Hq')).
      apply round53_pos_idempotent, Hq'.
Qed.

End Rounding.

(** On sample pairs of floats [Py.float_sub] is the difference binary64
    subtraction gives. *)
Example float_sub_agrees_with_binary64 :
  forallb (fun p =>
             Qeq_bool (Py.float_sub (Py.float_value (fst p))
                                    (Py.float_value (snd p)))
                      (Py.float_value (SFsub Py.prec Py.emax (fst p) (snd p))))
          Scenario.float_pairs
  = true.
Proof. vm_compute. reflexivity. Qed.

(** [1.1 - 0.1] is [1.0], although the two floats are more than 1 apart. *)
Example float_sub_rounds :
  (1 < Scenario.eleven_tenths - Scenario.tenth)%Q
  /\ (Py.float_sub Scenario.eleven_tenths Scenario.tenth == 1)%Q.
Proof. split; vm_compute; reflexivity. Qed.

(** ** cache_manager.py: how [get] and [put] branch *)

Section CacheFacts.

Context {A : Type}.
Implicit Types (c : Cache.QueryCache A) (e : Cache.CacheEntry A).

Lemma is_expired_true_iff now e :
  Cache.is_expired now e = true
  <-> (Py.round53 (Cache.ttl e) < Py.float_sub now (Cache.timestamp e))%Q.
Proof. apply Qltb_true_iff. Qed.



(** A negative [ttl] is below every difference of a later reading. *)
Lemma negative_ttl_expired now e :
  (Cache.ttl e < 0)%Q -> (Cache.timestamp e <= now)%Q ->
  Cache.is_expired now e = true.
Proof.
  intros Ht Hnow. apply is_expired_true_iff.
  apply Qlt_le_trans with 0%Q; [apply round53_lt_0, Ht|].
  apply round53_ge_0. now apply -> Qle_minus_iff.
Qed.


Lemma get_expired now q k c e :
  Py.dict_get (Cache._generate_key q k) (Cache.cache c) = Some e ->
  Cache.is_expired now e = true ->
  Cache.get now q k c
  = (None,
     Cache.mkQueryCache
       (Py.dict_del (Cache._generate_key q k) (Cache.cache c))
       (Cache.max_size c) (Cache.default_ttl c) (Cache.hits c)
       (Cache.misses c + 1)).
Proof. intros Hk He. unfold Cache.get. now rewrite Hk, He. Qed.

Lemma get_absent now q k c :
  Py.dict_get (Cache._generate_key q k) (Cache.cache c) = None ->
  Cache.get now q k c
  = (None,
     Cache.mkQueryCache (Cache.cache c) (Cache.max_size c)
       (Cache.default_ttl c) (Cache.hits c) (Cache.misses c + 1)).
Proof. intros Hk. unfold Cache.get. now rewrite Hk. Qed.


Lemma put_full now q v k t c oldest_key :
  Cache.max_size c <= Py.len (Cache.cache c) ->
  Py.min_by (Cache.timestamp_of (Cache.cache c)) (Py.keys (Cache.cache c))
  = Some oldest_key ->
  Cache.put now q v k t c
  = (Ok tt,
     Cache.with_cache
       (Py.dict_set (Cache._generate_key q k)
          (Cache.mkCacheEntry v now (Cache.ttl_or_default t c))
          (Py.dict_del oldest_key (Cache.cache c))) c).
Proof.
  intros H Hmin. unfold Cache.put. rewrite Hmin.
  destruct (Py.len (Cache.cache c) >=? Cache.max_size c) eqn:E; [reflexivity|].
  rewrite Z.geb_leb in E. apply Z.leb_gt in E. lia.
Qed.

Lemma put_empty_full now q v k t c :
  Cache.max_size c <= Py.len (Cache.cache c) ->
  Cache.cache c = [] ->
  Cache.put now q v k t c = (Raise (Exception "ValueError"), c).
Proof.
  intros H Hnil. unfold Cache.put. rewrite Hnil in *. simpl Py.min_by.
  destruct (Py.len [] >=? Cache.max_size c) eqn:E; [reflexivity|].
  rewrite Z.geb_leb in E. apply Z.leb_gt in E. lia.
Qed.

(** The entry the eviction scan picks is one of the oldest. *)
Lemma oldest_key_spec (d : Py.dict (Cache.CacheEntry A)) ko :
  Py.min_by (Cache.timestamp_of d) (Py.keys d) = Some ko ->
  exists eo,
    Py.dict_get ko d = Some eo
    /\ forall k' e', Py.dict_get k' d = Some e' ->
                     (Cache.timestamp eo <= Cache.timestamp e')%Q.
Proof.
  intros Hmin. apply min_by_spec in Hmin. destruct Hmin as [Hin Hall].
  destruct (dict_get_in_keys _ _ Hin) as [eo Heo].
  exists eo. split; [exact Heo|].
  intros k' e' Hk'.
  specialize (Hall k' (dict_get_some_in_keys _ _ _ Hk')).
  unfold Cache.timestamp_of in Hall. now rewrite Heo, Hk' in Hall.
Qed.

(** Every call keeps [max_size] and the size bound. *)
Lemma step_capacity c o :
  0 <= Cache.max_size c ->
  Py.len (Cache.cache c) <= Cache.max_size c ->
  Cache.max_size (Cache.step c o) = Cache.max_size c
  /\ Py.len (Cache.cache (Cache.step c o)) <= Cache.max_size c.
Proof.
  intros Hpos Hle. destruct o as [now q k|now q v k t| |]; simpl.
  - unfold Cache.get.
    destruct (Py.dict_get _ _) as [e|]; [destruct (Cache.is_expired now e)|];
      simpl; split; auto.
    pose proof (length_dict_del_le (Cache._generate_key q k) (Cache.cache c)).
    unfold Py.len in *. lia.
  - unfold Cache.put.
    destruct (Py.len (Cache.cache c) >=? Cache.max_size c) eqn:E.
    + destruct (Py.min_by _ _) as [ko|] eqn:Hmin; simpl; [|auto].
      split; [reflexivity|].
      apply min_by_spec in Hmin. destruct Hmin as [Hin _].
      destruct (dict_get_in_keys _ _ Hin) as [eo Heo].
      pose proof (length_dict_del _ _ _ Heo).
      pose proof (length_dict_set_le (Cache._generate_key q k)
                    (Cache.mkCacheEntry v now (Cache.ttl_or_default t c))
                    (Py.dict_del ko (Cache.cache c))).
      unfold Py.len in *. lia.
    + simpl. split; [reflexivity|].
      rewrite Z.geb_leb in E. apply Z.leb_gt in E.
      pose proof (length_dict_set_le (Cache._generate_key q k)
                    (Cache.mkCacheEntry v now (Cache.ttl_or_default t c))
                    (Cache.cache c)).
      unfold Py.len in *. lia.
  - split; [reflexivity|]. exact Hpos.
  - auto.
Qed.

Lemma run_capacity (os : list (Cache.call A)) c :
  0 <= Cache.max_size c ->
  Py.len (Cache.cache c) <= Cache.max_size c ->
  Cache.max_size (Cache.run os c) = Cache.max_size c
  /\ Py.len (Cache.cache (Cache.run os c)) <= Cache.max_size c.
Proof.
  revert c. induction os as [|o os IH]; intros c Hpos Hle; simpl; [auto|].
  destruct (step_capacity c o Hpos Hle) as [Hm Hl].
  destruct (IH (Cache.step c o)) as [Hm' Hl']; rewrite ?Hm; auto.
  rewrite Hm in *. auto.
Qed.

(** Every call keeps the keys of the dictionary distinct. *)
Lemma step_unique_keys c o :
  Py.unique_keys (Cache.cache c) = true ->
  Py.unique_keys (Cache.cache (Cache.step c o)) = true.
Proof.
  intros Hu. destruct o as [now q k|now q v k t| |]; simpl; auto.
  - unfold Cache.get.
    destruct (Py.dict_get _ _) as [e|]; [destruct (Cache.is_expired now e)|];
      simpl; auto using unique_keys_del.
  - unfold Cache.put.
    destruct (Py.len (Cache.cache c) >=? Cache.max_size c).
    + destruct (Py.min_by _ _); simpl; auto using unique_keys_set, unique_keys_del.
    + simpl. auto using unique_keys_set.
Qed.

Lemma run_unique_keys (os : list (Cache.call A)) c :
  Py.unique_keys (Cache.cache c) = true ->
  Py.unique_keys (Cache.cache (Cache.run os c)) = true.
Proof.
  revert c. induction os as [|o os IH]; intros c Hu; simpl; auto.
  apply IH. now apply step_unique_keys.
Qed.


(** Every cache reached from a new one has distinct keys. *)
Lemma reachable_unique_keys (os : list (Cache.call A)) (N : Z) (t : Q) :
  Py.unique_keys (Cache.cache (Cache.run os (Cache.__init__ N t))) = true.
Proof. now apply run_unique_keys. Qed.

End CacheFacts.


(** ** The statements about the cache *)

(** C5. On a cache built with [max_size = N] (a size, so [0 <= N]), after
    any sequence of calls, in particular any sequence of [put] calls, the
    number of stored entries is at most [N], and it still is after one more
    [put].  When that [put] finds the cache full and evicts, the entry it
    removes is one whose [timestamp] is smallest among the current entries,
    and the new entry is then stored in the remaining dictionary. *)
Theorem put_keeps_capacity_and_evicts_oldest :
  forall (A : Type) (N : Z) (default_ttl : Q) (os : list (Cache.call A)),
    0 <= N ->
    let c := Cache.run os (Cache.__init__ N default_ttl) in
    Py.len (Cache.cache c) <= N
    /\ (forall now q v k t,
           Py.len (Cache.cache (snd (Cache.put now q v k t c))) <= N)
    /\ (forall now q v k t,
           N <= Py.len (Cache.cache c) ->
           Cache.cache c <> [] ->
           exists ko eo,
             Py.dict_get ko (Cache.cache c) = Some eo
             /\ (forall k' e',
                    Py.dict_get k' (Cache.cache c) = Some e' ->
                    (Cache.timestamp eo <= Cache.timestamp e')%Q)
             /\ Cache.put now q v k t c
                = (Ok tt,
                   Cache.with_cache
                     (Py.dict_set (Cache._generate_key q k)
                        (Cache.mkCacheEntry v now (Cache.ttl_or_default t c))
                        (Py.dict_del ko (Cache.cache c))) c)).
Proof.
  intros A N default_ttl os HN c.
  assert (Hinit : Py.len (Cache.cache (Cache.__init__ (A:=A) N default_ttl))
                  <= Cache.max_size (Cache.__init__ (A:=A) N default_ttl))
    by (simpl; exact HN).
  destruct (run_capacity os (Cache.__init__ N default_ttl) HN Hinit)
    as [Hmax Hlen].
  fold c in Hmax, Hlen. cbn [Cache.__init__ Cache.max_size] in Hmax, Hlen.
  split; [exact Hlen|]. split.
  - intros now q v k t.
    assert (H0 : 0 <= Cache.max_size c) by (rewrite Hmax; exact HN).
    assert (H1 : Py.len (Cache.cache c) <= Cache.max_size c)
      by (rewrite Hmax; exact Hlen).
    destruct (step_capacity c (Cache.CallPut now q v k t) H0 H1) as [_ H].
    cbn [Cache.step] in H. now rewrite Hmax in H.
  - intros now q v k t Hfull Hne.
    assert (Hkeys : Py.keys (Cache.cache c) <> [])
      by (destruct (Cache.cache c); [congruence | discriminate]).
    destruct (min_by_nonempty (Cache.timestamp_of (Cache.cache c)) _ Hkeys)
      as [ko Hmin].
    destruct (oldest_key_spec _ _ Hmin) as (eo & Heo & Hold).
    exists ko, eo. repeat split; auto.
    apply put_full; [rewrite Hmax; exact Hfull | exact Hmin].
Qed.




(** C7, as the code has it.  [get_stats] returns the five entries
    ["hits"], ["misses"], ["hit_rate"], ["cache_size"] and ["max_size"];
    ["hit_rate"] is a text: the percentage [hits / (hits + misses) * 100]
    printed with two decimals and a ["%"] sign, ["0.00%"] when no request
    has been made. *)
Theorem get_stats_reports_percentage :
  forall (A : Type) (c : Cache.QueryCache A),
    let total_requests := Cache.hits c + Cache.misses c in
    Cache.get_stats c
    = [("hits", Cache.StatInt (Cache.hits c));
       ("misses", Cache.StatInt (Cache.misses c));
       ("hit_rate",
        Cache.StatStr
          ((if total_requests >? 0
            then Py.format_2f
                   (Py.float_mul_int
                      (Py.int_truediv (Cache.hits c) total_requests) 100)
            else "0.00") ++ "%"));
       ("cache_size", Cache.StatInt (Py.len (Cache.cache c)));
       ("max_size", Cache.StatInt (Cache.max_size c))]%string.
Proof.
  intros A c total_requests. unfold Cache.get_stats, Cache.hit_rate.
  fold total_requests. destruct (total_requests >? 0); reflexivity.
Qed.

(** C7 as stated fails: with one hit and one miss the hit rate of the
    code is the percentage 50, printed as ["50.00%"], not the ratio
    [1 / 2]. *)
Lemma hit_rate_is_not_the_ratio :
  ~ Claims.hit_rate_is_ratio Scenario.even_counters
  /\ Py.dict_get "hit_rate" (Cache.get_stats Scenario.even_counters)
     = Some (Cache.StatStr "50.00%").
Proof.
  split.
  - unfold Claims.hit_rate_is_ratio. vm_compute. discriminate.
  - vm_compute. reflexivity.
Qed.

(** ** vector_store_manager.py: requests and failures *)

Section StoreFacts.

Import Store.

Context {St : Type} {B : Backend St}.
Implicit Types (w : world St).

Lemma send_world {A : Type} (r : request) (f : St -> result A * St) w :
  send r f w = (fst (f (state w)), mkWorld (snd (f (state w))) (calls w ++ [r])).
Proof. unfold send. now destruct (f (state w)). Qed.

(** The per-document fallback swallows every failure. *)
Lemma insert_each_ok (docs : list doc_dict) w :
  fst (insert_each docs w) = Ok tt.
Proof.
  revert w. induction docs as [|doc r IH]; intros w; [reflexivity|].
  cbn [insert_each]. unfold bind, try_except.
  rewrite send_world.
  destruct (fst (insert_one doc (state w))); cbn; apply IH.
Qed.

Lemma vector_search_calls (v : vector) (k : Z) w :
  calls (snd (vector_search v k w)) = calls w ++ [Aggregate v k].
Proof.
  unfold vector_search, bind, lift. rewrite send_world.
  now destruct (fst (aggregate v k (state w))).
Qed.

Lemma fallback_search_world (q : string) (k : Z) w :
  snd (_fallback_search q k w)
  = mkWorld (snd (find_text q k (state w))) (calls w ++ [FindText q k]).
Proof.
  unfold _fallback_search, try_except, bind, lift, ret. rewrite send_world.
  destruct (fst (find_text q k (state w))) as [results|e]; cbn.
  - now destruct (documents_of plain_document results).
  - reflexivity.
Qed.

(** The lexical search returns a list whatever happens. *)
Lemma fallback_search_ok (q : string) (k : Z) w :
  exists docs, fst (_fallback_search q k w) = Ok docs.
Proof.
  unfold _fallback_search, try_except, bind, lift, ret. rewrite send_world.
  destruct (fst (find_text q k (state w))) as [results|e]; cbn.
  - destruct (documents_of plain_document results); cbn; eauto.
  - eauto.
Qed.

Lemma fallback_search_failed (q : string) (k : Z) w e :
  fst (find_text q k (state w)) = Raise e ->
  fst (_fallback_search q k w) = Ok [].
Proof.
  intros H. unfold _fallback_search, try_except, bind, lift, ret.
  rewrite send_world, H. reflexivity.
Qed.

(** [similarity_search] after the embedding of the query. *)
Lemma similarity_search_embedded (q : string) (k : Z) w v s' :
  embed_query q (state w) = (Ok v, s') ->
  similarity_search q k w
  = try_except (vector_search v k) is_Exception (_fallback_search q k)
               (mkWorld s' (calls w ++ [EmbedQuery q])).
Proof.
  intros H. unfold similarity_search, bind at 1. rewrite send_world, H.
  reflexivity.
Qed.

Lemma similarity_search_calls (q : string) (k : Z) w :
  exists rest,
    calls (snd (similarity_search q k w)) = calls w ++ EmbedQuery q :: rest.
Proof.
  destruct (embed_query q (state w)) as [[v|e] s'] eqn:E.
  - rewrite (similarity_search_embedded q k w v s' E).
    unfold try_except.
    pose proof (vector_search_calls v k (mkWorld s' (calls w ++ [EmbedQuery q])))
      as Hc.
    destruct (vector_search v k _) as [[docs|e] w2]; cbn [snd calls] in *.
    + exists [Aggregate v k]. rewrite Hc. now rewrite <- app_assoc.
    + destruct (is_Exception e).
      * rewrite fallback_search_world. cbn [calls]. rewrite Hc.
        exists [Aggregate v k; FindText q k]. now rewrite <- !app_assoc.
      * cbn [snd]. rewrite Hc. exists [Aggregate v k].
        now rewrite <- app_assoc.
  - unfold similarity_search, bind. rewrite send_world, E. cbn.
    now exists [].
Qed.

(** Whatever the single inserts do, the ids come back in full. *)
Lemma add_documents_ids (doc0 : Document) (documents : list Document)
      (ids : option (list string)) w embeddings s1 :
  embed_documents (map page_content (doc0 :: documents)) (state w)
  = (Ok embeddings, s1) ->
  (forall cls s2,
      insert_many (prepare ids 0 (combine (doc0 :: documents) embeddings)) s1
      <> (Raise (BaseException cls), s2)) ->
  fst (add_documents (doc0 :: documents) ids w)
  = Ok (map _id (prepare ids 0 (combine (doc0 :: documents) embeddings))).
Proof.
  intros Hemb Hbulk. unfold add_documents, bind at 1.
  rewrite send_world, Hemb. cbn [fst snd].
  set (docs := prepare ids 0 (combine (doc0 :: documents) embeddings)) in *.
  unfold bind, try_except, ret.
  destruct docs as [|d ds] eqn:Ed; [reflexivity|].
  rewrite send_world. cbn [state].
  destruct (insert_many (d :: ds) s1) as [[[]|e] s2] eqn:Ei; cbn [fst snd].
  - reflexivity.
  - destruct e as [cls|cls]; cbn [is_Exception].
    + pose proof (insert_each_ok (d :: ds)
                    (mkWorld s2 ((calls w ++ [EmbedDocuments
                       (map page_content (doc0 :: documents))])
                       ++ [InsertMany (d :: ds)]))) as Hok.
      destruct (insert_each (d :: ds) _) as [[[]|e'] w3]; [reflexivity|].
      discriminate Hok.
    + exfalso. now apply (Hbulk cls s2).
Qed.

End StoreFacts.

(** ** The statements about the vector store and the retrieval path *)

(** C10. [add_documents] on an empty list returns the empty id list at
    once: the world is left as it was, so no request went to the embedding
    function and none to the collection. *)
Theorem add_documents_empty_sends_nothing :
  forall (St : Type) (B : Store.Backend St) (ids : option (list string))
         (w : Store.world St),
    Store.add_documents [] ids w = (Ok [], w)
    /\ Store.calls (snd (Store.add_documents [] ids w)) = Store.calls w.
Proof. intros St B ids w. split; reflexivity. Qed.

(** C1, evaluated on the code.  With a bulk insert that fails and two of
    five single inserts refused, [add_documents] still returns all five
    ids, while the collection holds the three accepted records only. *)
Theorem add_documents_returns_unpersisted_ids :
  let r := Store.add_documents Sim.five None
             (Sim.start Sim.two_of_five_rejected) in
  fst r = Ok ["doc_0_5"; "doc_1_4"; "doc_2_5"; "doc_3_5"; "doc_4_7"]%string
  /\ map Store._id (Sim.stored (Store.state (snd r)))
     = ["doc_0_5"; "doc_2_5"; "doc_4_7"]%string.
Proof. vm_compute. split; reflexivity. Qed.

(** C2, as the code has it.  The retriever of [RAGSystem] hands every
    query to [similarity_search] with [k = top_k_results] and returns its
    result; nothing is looked up or stored in a cache, and each call sends
    at least the request that embeds the query. *)
Theorem retrieve_always_queries_the_store :
  forall (St : Type) (B : Store.Backend St) (r : Rag.RAGSystem)
         (query : string) (w : Store.world St),
    let retriever := Rag._create_retriever r in
    Rag.get_relevant_documents retriever query w
    = Store.similarity_search query (Rag.top_k_results r) w
    /\ exists rest,
         Store.calls (snd (Rag.get_relevant_documents retriever query w))
         = Store.calls w ++ Store.EmbedQuery query :: rest.
Proof.
  intros St B r query w retriever. split; [reflexivity|].
  apply similarity_search_calls.
Qed.

(** C2 as stated fails: a second retrieve with the same query sends the
    embedding and the search requests again. *)
Lemma second_retrieve_reaches_the_store :
  ~ Claims.second_retrieve_served_from_cache Scenario.rag "sky color"
      Scenario.sky_world.
Proof. unfold Claims.second_retrieve_served_from_cache. vm_compute. discriminate. Qed.

(** [clear_database] is [delete_all] of the vector store and nothing
    more: it sends the one [delete_many] request, leaves the collection
    as that request left it, and returns normally unless the request
    raised something that is not an [Exception]. *)
Lemma clear_database_is_delete_all :
  forall (St : Type) (B : Store.Backend St) (r : Rag.RAGSystem)
         (w : Store.world St),
    Rag.clear_database r w = Store.delete_all w
    /\ Store.calls (snd (Rag.clear_database r w))
       = Store.calls w ++ [Store.DeleteMany]
    /\ Store.state (snd (Rag.clear_database r w))
       = snd (Store.delete_many (Store.state w))
    /\ fst (Rag.clear_database r w)
       = match fst (Store.delete_many (Store.state w)) with
         | Raise (BaseException cls) => Raise (BaseException cls)
         | _ => Ok tt
         end.
Proof.
  intros St B r w. split; [reflexivity|].
  unfold Rag.clear_database, Store.delete_all, Store.try_except, Store.bind,
    Store.ret.
  rewrite send_world.
  destruct (fst (Store.delete_many (Store.state w))) as [n|[cls|cls]];
    cbn; repeat split.
Qed.




(** The delete is best effort: when the collection refuses it, the error
    is swallowed and a retrieve after the reset still finds the
    document. *)
Lemma reset_can_leave_documents :
  ~ Claims.reset_leaves_nothing_to_find Scenario.rag "sky color"
      Scenario.delete_refused.
Proof. unfold Claims.reset_leaves_nothing_to_find. vm_compute. discriminate. Qed.

(** The query is embedded before the [try]: an error of the embedding
    call goes to the caller, and no search request is sent. *)
Lemma similarity_search_embedding_error :
  forall (St : Type) (B : Store.Backend St) (query : string) (k : Z)
         (w : Store.world St) (e : exn) (s' : St),
    Store.embed_query query (Store.state w) = (Raise e, s') ->
    Store.similarity_search query k w
    = (Raise e, Store.mkWorld s' (Store.calls w ++ [Store.EmbedQuery query])).
Proof.
  intros St B query k w e s' H. unfold Store.similarity_search, Store.bind.
  rewrite send_world, H. reflexivity.
Qed.

(** [except Exception] lets what is not an [Exception] through. *)
Lemma similarity_search_not_an_exception :
  forall (St : Type) (B : Store.Backend St) (query : string) (k : Z)
         (w : Store.world St) (v : Store.vector) (s' : St) (e : exn)
         (w2 : Store.world St),
    Store.embed_query query (Store.state w) = (Ok v, s') ->
    Store.vector_search v k
      (Store.mkWorld s' (Store.calls w ++ [Store.EmbedQuery query]))
    = (Raise e, w2) ->
    is_Exception e = false ->
    Store.similarity_search query k w = (Raise e, w2).
Proof.
  intros St B query k w v s' e w2 H Hv He.
  rewrite (similarity_search_embedded query k w v s' H).
  unfold Store.try_except. now rewrite Hv, He.
Qed.

(** C4, as the code has it.  Once the query has been embedded, a vector
    search that succeeds gives the result, and one that fails with an
    [Exception], in the request or in the conversion of its results, gives
    the result of [_fallback_search] instead of raising.
    [_fallback_search] itself never raises and returns the empty list
    when the lexical search fails. *)
Theorem similarity_search_falls_back_once_embedded :
  forall (St : Type) (B : Store.Backend St) (query : string) (k : Z)
         (w : Store.world St) (v : Store.vector) (s' : St),
    Store.embed_query query (Store.state w) = (Ok v, s') ->
    let w1 := Store.mkWorld s' (Store.calls w ++ [Store.EmbedQuery query]) in
    (forall docs w2,
        Store.vector_search v k w1 = (Ok docs, w2) ->
        Store.similarity_search query k w = (Ok docs, w2))
    /\ (forall e w2,
           Store.vector_search v k w1 = (Raise e, w2) ->
           is_Exception e = true ->
           Store.similarity_search query k w
           = Store._fallback_search query k w2
           /\ exists docs, fst (Store.similarity_search query k w) = Ok docs)
    /\ (forall w', exists docs,
           fst (Store._fallback_search query k w') = Ok docs)
    /\ (forall w' e,
           fst (Store.find_text query k (Store.state w')) = Raise e ->
           fst (Store._fallback_search query k w') = Ok []).
Proof.
  intros St B query k w v s' H w1.
  rewrite (similarity_search_embedded query k w v s' H). fold w1.
  unfold Store.try_except. split; [|split; [|split]].
  - intros docs w2 Hv. now rewrite Hv.
  - intros e w2 Hv He. rewrite Hv, He. split; [reflexivity|].
    apply fallback_search_ok.
  - intros w'. apply fallback_search_ok.
  - intros w' e. apply fallback_search_failed.
Qed.

(** C4 as stated fails: when the embedding provider is down,
    [similarity_search] raises, although [_fallback_search] on the same
    world returns the stored document. *)
Lemma similarity_search_raises_provider_error :
  ~ Claims.search_never_raises "sky color" 1 Scenario.provider_down
  /\ fst (Store._fallback_search "sky color" 1 Scenario.provider_down)
     = Ok [Store.mkDocument "The sky is blue."
             [("source", Store.VStr "t1")]]%string.
Proof.
  split.
  - intros [docs H]. vm_compute in H. discriminate H.
  - vm_compute. reflexivity.
Qed.

(** ** The hypotheses above hold on concrete runs *)

Ltac by_evaluation := vm_compute; first [reflexivity | discriminate].

Lemma put_keeps_capacity_witness :
  0 <= 2
  /\ Py.len (Cache.cache
               (Cache.run Scenario.three_puts (Cache.__init__ 2 3600))) <= 2
  /\ 2 <= Py.len (Cache.cache Scenario.full)
  /\ Cache.cache Scenario.full <> []
  /\ exists ko eo,
       Py.dict_get ko (Cache.cache Scenario.full) = Some eo
       /\ (forall k' e',
              Py.dict_get k' (Cache.cache Scenario.full) = Some e' ->
              (Cache.timestamp eo <= Cache.timestamp e')%Q)
       /\ Cache.put 3 "c" tt 5 None Scenario.full
          = (Ok tt,
             Cache.with_cache
               (Py.dict_set (Cache._generate_key "c" 5)
                  (Cache.mkCacheEntry tt 3
                     (Cache.ttl_or_default None Scenario.full))
                  (Py.dict_del ko (Cache.cache Scenario.full)))
               Scenario.full).
Proof.
  assert (H2 : 0 <= 2) by by_evaluation.
  assert (Hfull : 2 <= Py.len (Cache.cache Scenario.full)) by by_evaluation.
  assert (Hne : Cache.cache Scenario.full <> []) by by_evaluation.
  split; [exact H2|]. split.
  - exact (proj1 (put_keeps_capacity_and_evicts_oldest
                    unit 2 3600 Scenario.three_puts H2)).
  - split; [exact Hfull|]. split; [exact Hne|].
    exact (proj2 (proj2 (put_keeps_capacity_and_evicts_oldest
                           unit 2 3600 (firstn 2 Scenario.three_puts) H2))
                 3%Q "c"%string tt 5 None Hfull Hne).
Defined.





Lemma similarity_search_witness :
  Store.embed_query "sky color" (Store.state Scenario.index_missing)
  = (Ok (Sim.embed "sky color"), Store.state Scenario.index_missing)
  /\ fst (Store.vector_search (Sim.embed "sky color") 1
            (Scenario.embedded "sky color" Scenario.index_missing))
     = Raise (Exception "OperationFailure")
  /\ Store.similarity_search "sky color" 1 Scenario.index_missing
     = Store._fallback_search "sky color" 1
         (snd (Store.vector_search (Sim.embed "sky color") 1
                 (Scenario.embedded "sky color" Scenario.index_missing)))
  /\ fst (Store.find_text "sky color" 1
            (Store.state Scenario.both_searches_down))
     = Raise (Exception "OperationFailure")
  /\ fst (Store._fallback_search "sky color" 1 Scenario.both_searches_down)
     = Ok [].
Proof.
  assert (He : Store.embed_query "sky color"
                 (Store.state Scenario.index_missing)
               = (Ok (Sim.embed "sky color"),
                  Store.state Scenario.index_missing)) by by_evaluation.
  assert (Hv : Store.vector_search (Sim.embed "sky color") 1
                 (Scenario.embedded "sky color" Scenario.index_missing)
               = (Raise (Exception "OperationFailure"),
                  snd (Store.vector_search (Sim.embed "sky color") 1
                         (Scenario.embedded "sky color"
                            Scenario.index_missing))))
    by by_evaluation.
  assert (Hf : fst (Store.find_text "sky color" 1
                      (Store.state Scenario.both_searches_down))
               = Raise (Exception "OperationFailure")) by by_evaluation.
  destruct (similarity_search_falls_back_once_embedded
              Sim.sim Sim.sim_backend "sky color" 1 Scenario.index_missing
              (Sim.embed "sky color") (Store.state Scenario.index_missing) He)
    as (_ & Hex & _ & Hempty).
  split; [exact He|]. split; [by_evaluation|].
  split; [exact (proj1 (Hex _ _ Hv eq_refl))|].
  split; [exact Hf|].
  exact (Hempty Scenario.both_searches_down _ Hf).
Defined.

(** ** Further runs of the cache and of the simulated store *)

(** An entry stored at the reading [0.1] with a time-to-live of 1 is
    served at the reading [1.1]: the two floats are more than 1 apart,
    and their float difference is [1.0]. *)
Example entry_served_at_rounded_boundary :
  (Cache.ttl Scenario.tenth_entry
   < Scenario.eleven_tenths - Cache.timestamp Scenario.tenth_entry)%Q
  /\ Cache.is_expired Scenario.eleven_tenths Scenario.tenth_entry = false
  /\ fst (Cache.get Scenario.eleven_tenths "sky" 5 Scenario.stored_at_tenth)
     = Some tt.
Proof. repeat split; by_evaluation. Qed.

(** The cached documents are still served after a reset that emptied the
    collection. *)
Example cached_results_outlive_reset :
  fst (Program.cache_get 1 "sky color" 1
         (snd (Program.clear_database Scenario.rag Scenario.sky_cached)))
  = Some [Sim.doc "The sky is blue."]
  /\ Sim.stored (Store.state (Program.store
         (snd (Program.clear_database Scenario.rag Scenario.sky_cached))))
     = [].
Proof. split; by_evaluation. Qed.

(** A reset that the collection accepts leaves nothing for a retrieve. *)
Example reset_then_retrieve_finds_nothing :
  fst (Rag.get_relevant_documents (Rag._create_retriever Scenario.rag)
         "sky color" (snd (Rag.clear_database Scenario.rag Scenario.sky_world)))
  = Ok [].
Proof. by_evaluation. Qed.

(** An interrupt during the vector search is not turned into a fallback. *)
Example interrupt_goes_to_the_caller :
  fst (Store.similarity_search "sky color" 1 Scenario.interrupted)
  = Raise (BaseException "KeyboardInterrupt").
Proof. by_evaluation. Qed.

(** A search result without content sends the search to the fallback. *)
Example scored_document_needs_content :
  Store.documents_of Store.scored_document [Store.mkHit None None None]
  = Raise (Exception "KeyError").
Proof. reflexivity. Qed.

(** * Further properties of the code *)

(** ** cache_manager.py *)

Section MoreDictFacts.

Context {V : Type}.

Lemma length_dict_set_present (k : string) (v v0 : V) (d : Py.dict V) :
  Py.dict_get k d = Some v0 ->
  List.length (Py.dict_set k v d) = List.length d.
Proof.
  induction d as [|[k' v'] r IH]; simpl; [discriminate|].
  destruct (String.eqb k k'); simpl; auto.
Qed.

End MoreDictFacts.


Lemma step_no_capacity {A : Type} (c : Cache.QueryCache A) (o : Cache.call A) :
  Cache.max_size c <= 0 ->
  Cache.cache c = [] ->
  Cache.max_size (Cache.step c o) = Cache.max_size c
  /\ Cache.cache (Cache.step c o) = [].
Proof.
  intros HN Hnil. destruct o as [now q k|now q v k t| |]; cbn [Cache.step].
  - rewrite get_absent by (rewrite Hnil; reflexivity). cbn. auto.
  - rewrite put_empty_full; auto. rewrite Hnil. unfold Py.len. simpl. lia.
  - cbn. auto.
  - auto.
Qed.

Lemma run_no_capacity {A : Type} (os : list (Cache.call A))
      (c : Cache.QueryCache A) :
  Cache.max_size c <= 0 ->
  Cache.cache c = [] ->
  Cache.max_size (Cache.run os c) = Cache.max_size c
  /\ Cache.cache (Cache.run os c) = [].
Proof.
  revert c. induction os as [|o os IH]; intros c HN Hnil; simpl; [auto|].
  destruct (step_no_capacity c o HN Hnil) as [Hm Hc].
  assert (HN' : Cache.max_size (Cache.step c o) <= 0) by (rewrite Hm; exact HN).
  destruct (IH (Cache.step c o) HN' Hc) as [Hm' Hc'].
  split; [now rewrite Hm', Hm | exact Hc'].
Qed.

(** X2. A cache built with [max_size <= 0] never holds an entry: whatever
    calls were made, the dictionary is empty, every [put] raises
    [ValueError] (the [min] of no keys) and leaves the cache as it was,
    and every [get] returns [None]. *)
Theorem cache_without_capacity_stores_nothing :
  forall (A : Type) (N : Z) (default_ttl : Q) (os : list (Cache.call A)),
    N <= 0 ->
    let c := Cache.run os (Cache.__init__ N default_ttl) in
    Cache.cache c = []
    /\ (forall now q v k t,
           Cache.put now q v k t c = (Raise (Exception "ValueError"), c))
    /\ (forall now q k, fst (Cache.get now q k c) = None).
Proof.
  intros A N default_ttl os HN c.
  destruct (run_no_capacity os (Cache.__init__ N default_ttl) HN eq_refl)
    as [Hm Hc].
  fold c in Hm, Hc. cbn [Cache.__init__ Cache.max_size] in Hm.
  split; [exact Hc|]. split.
  - intros now q v k t. apply put_empty_full; [|exact Hc].
    rewrite Hm, Hc. unfold Py.len. simpl. exact HN.
  - intros now q k. rewrite get_absent; [reflexivity|].
    rewrite Hc. reflexivity.
Qed.

(** X3. A [put] on a full cache evicts before it looks at the key: when
    the key is already stored and is not the evicted one, the entry is
    overwritten in place and the cache ends one entry smaller, without the
    evicted key. *)
Theorem put_existing_key_on_full_cache_shrinks :
  forall (A : Type) (c : Cache.QueryCache A) (now : Q) (q : string) (k : Z)
         (v : A) (t : option Q) (oldest_key : string)
         (e0 : Cache.CacheEntry A),
    Py.unique_keys (Cache.cache c) = true ->
    Cache.max_size c <= Py.len (Cache.cache c) ->
    Py.min_by (Cache.timestamp_of (Cache.cache c)) (Py.keys (Cache.cache c))
    = Some oldest_key ->
    Py.dict_get (Cache._generate_key q k) (Cache.cache c) = Some e0 ->
    Cache._generate_key q k <> oldest_key ->
    let c' := snd (Cache.put now q v k t c) in
    fst (Cache.put now q v k t c) = Ok tt
    /\ Py.len (Cache.cache c') = Py.len (Cache.cache c) - 1
    /\ Py.dict_get oldest_key (Cache.cache c') = None
    /\ Py.dict_get (Cache._generate_key q k) (Cache.cache c')
       = Some (Cache.mkCacheEntry v now (Cache.ttl_or_default t c)).
Proof.
  intros A c now q k v t ko e0 Hu Hfull Hmin Hk Hne c'.
  unfold c'. rewrite (put_full now q v k t c ko Hfull Hmin).
  cbn [fst snd Cache.with_cache Cache.cache].
  assert (Hk' : Py.dict_get (Cache._generate_key q k)
                  (Py.dict_del ko (Cache.cache c)) = Some e0)
    by (rewrite dict_get_del_other; assumption).
  destruct (min_by_spec _ _ _ Hmin) as [Hin _].
  destruct (dict_get_in_keys _ _ Hin) as [eo Heo].
  repeat split.
  - pose proof (length_dict_del _ _ _ Heo) as Hd.
    pose proof (length_dict_set_present (Cache._generate_key q k)
                  (Cache.mkCacheEntry v now (Cache.ttl_or_default t c))
                  e0 _ Hk') as Hs.
    unfold Py.len. lia.
  - rewrite dict_get_set_other by congruence.
    now apply dict_get_del_same.
  - apply dict_get_set_same.
Qed.

Lemma step_counts {A : Type} (c : Cache.QueryCache A) (o : Cache.call A)
      (os : list (Cache.call A)) :
  Count.gets_since_clear (o :: os) (Cache.hits c + Cache.misses c)
  = Count.gets_since_clear os
      (Cache.hits (Cache.step c o) + Cache.misses (Cache.step c o)).
Proof.
  destruct o as [now q k|now q v k t| |]; cbn [Count.gets_since_clear Cache.step].
  - f_equal. unfold Cache.get.
    destruct (Py.dict_get _ _) as [e|]; [destruct (Cache.is_expired now e)|];
      cbn; lia.
  - f_equal. unfold Cache.put.
    destruct (Py.len (Cache.cache c) >=? Cache.max_size c);
      [destruct (Py.min_by _ _)|]; cbn; lia.
  - reflexivity.
  - reflexivity.
Qed.

(** X4. Every [get] is counted once, as a hit or as a miss, and nothing
    else is counted: after any run, [hits + misses] is the number of [get]
    calls made since the last [clear]. *)
Theorem hits_plus_misses_counts_gets :
  forall (A : Type) (os : list (Cache.call A)) (c : Cache.QueryCache A),
    Cache.hits (Cache.run os c) + Cache.misses (Cache.run os c)
    = Count.gets_since_clear os (Cache.hits c + Cache.misses c).
Proof.
  intros A os. induction os as [|o os IH]; intros c; [reflexivity|].
  rewrite step_counts. cbn [Cache.run fold_left]. apply IH.
Qed.



(** X7. A negative time-to-live gives an entry that is never served: any
    [get] at the time of the [put] or later finds it expired, returns
    [None] and removes it. *)
Theorem put_with_negative_ttl_is_never_served :
  forall (A : Type) (c c' : Cache.QueryCache A) (now now' t : Q)
         (q : string) (k : Z) (v : A),
    (t < 0)%Q ->
    (now <= now')%Q ->
    Py.unique_keys (Cache.cache c) = true ->
    Cache.put now q v k (Some t) c = (Ok tt, c') ->
    fst (Cache.get now' q k c') = None
    /\ Py.dict_get (Cache._generate_key q k)
         (Cache.cache (snd (Cache.get now' q k c'))) = None.
Proof.
  intros A c c' now now' t q k v Ht Hnow Hu Hput.
  assert (Httl : Cache.ttl_or_default (Some t) c = t).
  { unfold Cache.ttl_or_default.
    destruct (Qeq_bool t 0) eqn:E; [|reflexivity].
    apply Qeq_bool_iff in E. rewrite E in Ht. now apply Qlt_irrefl in Ht. }
  set (e := Cache.mkCacheEntry v now t).
  assert (Hin : Py.dict_get (Cache._generate_key q k) (Cache.cache c') = Some e
                /\ Py.unique_keys (Cache.cache c') = true).
  { unfold Cache.put in Hput. rewrite Httl in Hput.
    destruct (Py.len (Cache.cache c) >=? Cache.max_size c).
    - destruct (Py.min_by _ _); [|discriminate].
      injection Hput as <-. cbn [Cache.with_cache Cache.cache]. split.
      + apply dict_get_set_same.
      + apply unique_keys_set. now apply unique_keys_del.
    - injection Hput as <-. cbn [Cache.with_cache Cache.cache]. split.
      + apply dict_get_set_same.
      + now apply unique_keys_set. }
  destruct Hin as [Hin Hu'].
  assert (He : Cache.is_expired now' e = true)
    by (apply negative_ttl_expired; [exact Ht | exact Hnow]).
  rewrite (get_expired now' q k c' e Hin He). cbn [fst snd Cache.cache].
  split; [reflexivity|]. now apply dict_get_del_same.
Qed.

(** *** Normal forms of queries *)

Lemma lower_char_idempotent (c : ascii) :
  Py.lower_char (Py.lower_char c) = Py.lower_char c.
Proof. destruct c as [[|] [|] [|] [|] [|] [|] [|] [|]]; vm_compute; reflexivity. Qed.

Lemma isspace_lower_char (c : ascii) :
  Py.isspace (Py.lower_char c) = Py.isspace c.
Proof. destruct c as [[|] [|] [|] [|] [|] [|] [|] [|]]; vm_compute; reflexivity. Qed.

Lemma lower_idempotent (s : string) : Py.lower (Py.lower s) = Py.lower s.
Proof.
  induction s as [|c r IH]; simpl; [reflexivity|].
  now rewrite lower_char_idempotent, IH.
Qed.

Lemma lower_append (a b : string) :
  Py.lower (a ++ b) = (Py.lower a ++ Py.lower b)%string.
Proof. induction a as [|c r IH]; simpl; [reflexivity | now rewrite IH]. Qed.

Lemma lstrip_lower_blank (s : string) :
  Py.lstrip s = EmptyString -> Py.lstrip (Py.lower s) = EmptyString.
Proof.
  induction s as [|c r IH]; simpl; [reflexivity|].
  rewrite isspace_lower_char. destruct (Py.isspace c); [exact IH | discriminate].
Qed.

Lemma lstrip_blank_prefix (l s : string) :
  Py.lstrip l = EmptyString -> Py.lstrip (l ++ s) = Py.lstrip s.
Proof.
  induction l as [|c r IH]; simpl; [reflexivity|].
  destruct (Py.isspace c); [exact IH | discriminate].
Qed.

Lemma rstrip_blank (r : string) :
  Py.lstrip r = EmptyString -> Py.rstrip r = EmptyString.
Proof.
  induction r as [|c r IH]; simpl; [reflexivity|].
  destruct (Py.isspace c); [|discriminate].
  intros H. now rewrite (IH H).
Qed.

Lemma rstrip_blank_suffix (s r : string) :
  Py.lstrip r = EmptyString -> Py.rstrip (s ++ r) = Py.rstrip s.
Proof.
  intros H. induction s as [|c s IH]; simpl.
  - now apply rstrip_blank.
  - now rewrite IH.
Qed.

Lemma lstrip_blank_suffix (s r : string) :
  Py.lstrip r = EmptyString ->
  Py.lstrip (s ++ r) = (Py.lstrip s ++ r)%string
  \/ (Py.lstrip s = EmptyString /\ Py.lstrip (s ++ r) = EmptyString).
Proof.
  intros H. induction s as [|c s IH]; simpl.
  - right. auto.
  - destruct (Py.isspace c); [exact IH | left; reflexivity].
Qed.

Lemma strip_blank_margins (l s r : string) :
  Py.lstrip l = EmptyString -> Py.lstrip r = EmptyString ->
  Py.strip (l ++ s ++ r) = Py.strip s.
Proof.
  intros Hl Hr. unfold Py.strip. rewrite (lstrip_blank_prefix l _ Hl).
  destruct (lstrip_blank_suffix s r Hr) as [E|[E1 E2]].
  - rewrite E. now apply rstrip_blank_suffix.
  - now rewrite E1, E2.
Qed.

(** X8. The cache key ignores the case of the query and the white space
    around it: the lower-cased query has the key of the query, and so has
    the query with any white space put before and after it. *)
Theorem key_ignores_case_and_outer_whitespace :
  forall (q l r : string) (k : Z),
    Py.lstrip l = EmptyString ->
    Py.lstrip r = EmptyString ->
    Cache._generate_key (Py.lower q) k = Cache._generate_key q k
    /\ Cache._generate_key (l ++ q ++ r) k = Cache._generate_key q k.
Proof.
  intros q l r k Hl Hr. split; apply generate_key_normal_form.
  - now rewrite lower_idempotent.
  - rewrite !lower_append.
    apply strip_blank_margins; now apply lstrip_lower_blank.
Qed.

(** ** vector_store_manager.py *)

Section MoreStoreFacts.

Import Store.

Context {St : Type} {B : Backend St}.
Implicit Types (w : world St).

Lemma insert_each_calls (docs : list doc_dict) w :
  calls (snd (insert_each docs w)) = calls w ++ map InsertOne docs.
Proof.
  revert w. induction docs as [|doc r IH]; intros w.
  - cbn. now rewrite app_nil_r.
  - cbn [insert_each map]. unfold bind, try_except.
    rewrite send_world.
    destruct (fst (insert_one doc (state w))); cbn [any_exception ret];
      rewrite IH; cbn [calls]; now rewrite <- app_assoc.
Qed.

Lemma prepare_length (ids : option (list string)) (n : nat)
      (pairs : list (Document * vector)) :
  List.length (prepare ids n pairs) = List.length pairs.
Proof.
  revert n. induction pairs as [|[doc emb] r IH]; intros n; simpl; auto.
Qed.

Lemma prepare_nth (ids : option (list string)) (n i : nat)
      (pairs : list (Document * vector)) doc emb :
  nth_error pairs i = Some (doc, emb) ->
  nth_error (prepare ids n pairs) i
  = Some (mkDocDict (doc_id ids (n + i) doc) (page_content doc)
                    (metadata doc) emb).
Proof.
  revert n i. induction pairs as [|[d0 e0] r IH]; intros n i H.
  - destruct i; discriminate.
  - destruct i as [|i]; simpl in *.
    + injection H as -> ->. now rewrite Nat.add_0_r.
    + rewrite (IH (S n) i H). now rewrite Nat.add_succ_r.
Qed.

Lemma skipn_cons_nth {X : Type} (l : list X) (n : nat) (x : X) :
  nth_error l n = Some x -> skipn n l = x :: skipn (S n) l.
Proof.
  revert n. induction l as [|y l IH]; intros n H.
  - destruct n; discriminate.
  - destruct n as [|n]; simpl in *.
    + now injection H as ->.
    + now apply IH.
Qed.

Lemma prepare_ids_supplied (l : list string) (n : nat)
      (pairs : list (Document * vector)) :
  (n + List.length pairs <= List.length l)%nat ->
  map _id (prepare (Some l) n pairs) = firstn (List.length pairs) (skipn n l).
Proof.
  revert n. induction pairs as [|[doc emb] r IH]; intros n H.
  - reflexivity.
  - cbn [prepare map _id List.length] in *.
    assert (E : exists id, nth_error l n = Some id).
    { destruct (nth_error l n) eqn:E; eauto.
      apply nth_error_None in E. lia. }
    destruct E as [id E].
    unfold doc_id. rewrite E, (IH (S n)) by lia.
    now rewrite (skipn_cons_nth l n id E).
Qed.

End MoreStoreFacts.

(** *** Decimal numerals in generated ids *)

Lemma to_int_not_nil (z : Z) :
  Z.to_int z <> Decimal.Pos Decimal.Nil /\ Z.to_int z <> Decimal.Neg Decimal.Nil.
Proof.
  destruct z; simpl; split; try discriminate; intros [= H];
    now apply DecimalPos.Unsigned.to_uint_nonnil in H.
Qed.

Lemma str_of_int_injective (z z' : Z) :
  Py.str_of_int z = Py.str_of_int z' -> z = z'.
Proof.
  intros H. apply DecimalZ.to_int_inj.
  destruct (to_int_not_nil z) as [H1 H2], (to_int_not_nil z') as [H1' H2'].
  pose proof (NilZero.isi (Z.to_int z) H1 H2) as E.
  pose proof (NilZero.isi (Z.to_int z') H1' H2') as E'.
  unfold Py.str_of_int in H. rewrite H in E. congruence.
Qed.

Lemma str_of_nat_digits (i : nat) :
  exists u, Py.str_of_int (Z.of_nat i) = NilEmpty.string_of_uint u.
Proof.
  unfold Py.str_of_int. destruct (Z.of_nat i) as [|p|p] eqn:E.
  - exists (Decimal.D0 Decimal.Nil). reflexivity.
  - simpl. destruct (Pos.to_uint p) eqn:Eu;
      try (eexists; unfold NilZero.string_of_uint; reflexivity).
    exists (Decimal.D0 Decimal.Nil). reflexivity.
  - lia.
Qed.

(** A numeral followed by an underscore determines the numeral. *)
Lemma numeral_before_underscore (u u' : Decimal.uint) (x y : string) :
  (NilEmpty.string_of_uint u ++ String "_" x
   = NilEmpty.string_of_uint u' ++ String "_" y)%string ->
  NilEmpty.string_of_uint u = NilEmpty.string_of_uint u'.
Proof.
  revert u'. induction u; intros u'; destruct u'; simpl; intros H;
    try reflexivity; try discriminate H;
    injection H as H; f_equal; eauto.
Qed.

Section GeneratedIds.

Import Store.

Context {St : Type} {B : Backend St}.

Lemma generated_id_index (i j : nat) (doc doc' : Document) :
  doc_id None i doc = doc_id None j doc' -> i = j.
Proof.
  unfold doc_id. intros H.
  destruct (str_of_nat_digits i) as [u Hu], (str_of_nat_digits j) as [u' Hu'].
  rewrite Hu, Hu' in H. simpl in H. injection H as H.
  apply numeral_before_underscore in H.
  rewrite <- Hu, <- Hu' in H. apply str_of_int_injective in H. lia.
Qed.

Lemma prepare_generated_from (n : nat) (pairs : list (Document * vector))
      (id : string) :
  In id (map _id (prepare None n pairs)) ->
  exists i doc, (n <= i)%nat /\ id = doc_id None i doc.
Proof.
  revert n. induction pairs as [|[doc emb] r IH]; intros n; simpl; [tauto|].
  intros [<-|Hin].
  - exists n, doc. auto.
  - destruct (IH (S n) Hin) as (i & doc' & Hle & ->).
    exists i, doc'. split; [lia | reflexivity].
Qed.

Lemma prepare_generated_distinct (n : nat) (pairs : list (Document * vector)) :
  NoDup (map _id (prepare None n pairs)).
Proof.
  revert n. induction pairs as [|[doc emb] r IH]; intros n; simpl.
  - constructor.
  - constructor; [|apply IH].
    intros Hin. apply prepare_generated_from in Hin.
    destruct Hin as (i & doc' & Hle & Heq).
    apply generated_id_index in Heq. lia.
Qed.

End GeneratedIds.

(** *** [add_documents] *)

(** X9. An error of the embedding call ends [add_documents] at once: the
    same error is raised, the only request made is the embedding request,
    and nothing is sent to the collection. *)
Theorem add_documents_embedding_error_inserts_nothing :
  forall (St : Type) (B : Store.Backend St) (documents : list Store.Document)
         (ids : option (list string)) (w : Store.world St) (e : exn) (s1 : St),
    documents <> [] ->
    Store.embed_documents (map Store.page_content documents) (Store.state w)
    = (Raise e, s1) ->
    Store.add_documents documents ids w
    = (Raise e,
       Store.mkWorld s1
         (Store.calls w
            ++ [Store.EmbedDocuments (map Store.page_content documents)])).
Proof.
  intros St B documents ids w e s1 Hne Hemb.
  destruct documents as [|doc0 documents]; [congruence|].
  unfold Store.add_documents, Store.bind. rewrite send_world, Hemb.
  reflexivity.
Qed.

(** X10. When the bulk insert succeeds, [add_documents] has made exactly
    two requests, the embedding of all texts and then one [insert_many] of
    all prepared records, and returns their ids. *)
Theorem add_documents_bulk_success_sends_two_requests :
  forall (St : Type) (B : Store.Backend St) (documents : list Store.Document)
         (ids : option (list string)) (w : Store.world St)
         (embeddings : list Store.vector) (s1 s2 : St),
    let texts := map Store.page_content documents in
    let docs := Store.prepare ids 0 (combine documents embeddings) in
    docs <> [] ->
    Store.embed_documents texts (Store.state w) = (Ok embeddings, s1) ->
    Store.insert_many docs s1 = (Ok tt, s2) ->
    Store.add_documents documents ids w
    = (Ok (map Store._id docs),
       Store.mkWorld s2
         (Store.calls w ++ [Store.EmbedDocuments texts; Store.InsertMany docs])).
Proof.
  intros St B documents ids w embeddings s1 s2 texts docs Hne Hemb Hins.
  destruct documents as [|doc0 documents]; [now destruct Hne|].
  unfold Store.add_documents, Store.bind at 1. fold texts.
  rewrite send_world, Hemb. cbn [fst snd]. fold docs.
  unfold Store.bind, Store.try_except, Store.ret.
  destruct docs as [|d ds] eqn:Ed; [congruence|].
  rewrite send_world. cbn [Store.state Store.calls]. rewrite Hins. cbn.
  now rewrite <- app_assoc.
Qed.

(** X11. When the bulk insert fails with an [Exception], every prepared
    record is then inserted on its own, in order and whatever happens to
    the others: the requests are the embedding, the [insert_many], and one
    [insert_one] per record; the call returns normally. *)
Theorem add_documents_bulk_failure_retries_each :
  forall (St : Type) (B : Store.Backend St) (documents : list Store.Document)
         (ids : option (list string)) (w : Store.world St)
         (embeddings : list Store.vector) (s1 s2 : St) (e : exn),
    let texts := map Store.page_content documents in
    let docs := Store.prepare ids 0 (combine documents embeddings) in
    docs <> [] ->
    Store.embed_documents texts (Store.state w) = (Ok embeddings, s1) ->
    Store.insert_many docs s1 = (Raise e, s2) ->
    is_Exception e = true ->
    fst (Store.add_documents documents ids w) = Ok (map Store._id docs)
    /\ Store.calls (snd (Store.add_documents documents ids w))
       = Store.calls w
           ++ [Store.EmbedDocuments texts; Store.InsertMany docs]
           ++ map Store.InsertOne docs.
Proof.
  intros St B documents ids w embeddings s1 s2 e texts docs Hne Hemb Hins He.
  destruct documents as [|doc0 documents]; [now destruct Hne|].
  assert (Hrun : exists w3,
             Store.add_documents (doc0 :: documents) ids w
             = (Ok (map Store._id docs), w3)
             /\ Store.calls w3
                = Store.calls w
                    ++ [Store.EmbedDocuments texts; Store.InsertMany docs]
                    ++ map Store.InsertOne docs).
  { unfold Store.add_documents, Store.bind at 1. fold texts.
    rewrite send_world, Hemb. cbn [fst snd]. fold docs.
    unfold Store.bind, Store.try_except, Store.ret.
    destruct docs as [|d ds] eqn:Ed; [congruence|].
    rewrite send_world. cbn [Store.state Store.calls]. rewrite Hins.
    cbn [fst snd]. rewrite He.
    set (w2 := Store.mkWorld s2 _).
    pose proof (insert_each_ok (d :: ds) w2) as Hok.
    pose proof (insert_each_calls (d :: ds) w2) as Hcalls.
    destruct (Store.insert_each (d :: ds) w2) as [[[]|e'] w3];
      [|discriminate Hok].
    cbn [fst snd] in *. exists w3. split; [reflexivity|].
    rewrite Hcalls. unfold w2. cbn [Store.calls].
    now rewrite <- !app_assoc. }
  destruct Hrun as (w3 & -> & Hc). split; [reflexivity | exact Hc].
Qed.

Lemma nth_error_combine_some {X Y : Type} (a : list X) (b : list Y) (i : nat)
      (x : X) :
  nth_error a i = Some x -> (i < List.length b)%nat ->
  exists y, nth_error (combine a b) i = Some (x, y).
Proof.
  revert b i. induction a as [|x0 a IH]; intros b i Ha Hb.
  - destruct i; discriminate.
  - destruct b as [|y0 b]; [simpl in Hb; lia|].
    destruct i as [|i]; simpl in *.
    + injection Ha as ->. eauto.
    + apply IH; [exact Ha | lia].
Qed.

(** X12. [add_documents] pairs documents with embeddings by position and
    stops at the shorter list: the ids it returns are as many as the
    shorter of the two, and the id at position [i] is the one chosen for
    document [i] ([ids[i]] when supplied, the generated one otherwise). *)
Theorem add_documents_ids_follow_positions :
  forall (St : Type) (B : Store.Backend St) (documents : list Store.Document)
         (ids : option (list string)) (w : Store.world St)
         (embeddings : list Store.vector) (s1 : St),
    documents <> [] ->
    Store.embed_documents (map Store.page_content documents) (Store.state w)
    = (Ok embeddings, s1) ->
    (forall cls s2,
        Store.insert_many
          (Store.prepare ids 0 (combine documents embeddings)) s1
        <> (Raise (BaseException cls), s2)) ->
    exists out,
      fst (Store.add_documents documents ids w) = Ok out
      /\ List.length out
         = Nat.min (List.length documents) (List.length embeddings)
      /\ forall i doc,
           nth_error documents i = Some doc ->
           (i < List.length embeddings)%nat ->
           nth_error out i = Some (Store.doc_id ids i doc).
Proof.
  intros St B documents ids w embeddings s1 Hne Hemb Hbulk.
  destruct documents as [|doc0 documents]; [congruence|].
  eexists. split; [exact (add_documents_ids _ _ _ _ _ _ Hemb Hbulk)|].
  split.
  - now rewrite length_map, prepare_length, length_combine.
  - intros i doc Hi Hlt.
    destruct (nth_error_combine_some _ embeddings i doc Hi Hlt) as [emb Hc].
    rewrite nth_error_map, (prepare_nth ids 0 i _ doc emb Hc).
    reflexivity.
Qed.

(** X13. When the caller supplies at least as many ids as documents and
    every document gets an embedding, the ids returned are the supplied
    ones, in order, one per document. *)
Theorem add_documents_returns_supplied_ids :
  forall (St : Type) (B : Store.Backend St) (documents : list Store.Document)
         (l : list string) (w : Store.world St)
         (embeddings : list Store.vector) (s1 : St),
    documents <> [] ->
    Store.embed_documents (map Store.page_content documents) (Store.state w)
    = (Ok embeddings, s1) ->
    List.length embeddings = List.length documents ->
    (List.length documents <= List.length l)%nat ->
    (forall cls s2,
        Store.insert_many
          (Store.prepare (Some l) 0 (combine documents embeddings)) s1
        <> (Raise (BaseException cls), s2)) ->
    fst (Store.add_documents documents (Some l) w)
    = Ok (firstn (List.length documents) l).
Proof.
  intros St B documents l w embeddings s1 Hne Hemb Hlen Hl Hbulk.
  destruct documents as [|doc0 documents]; [congruence|].
  rewrite (add_documents_ids _ _ _ _ _ _ Hemb Hbulk).
  assert (Hc : List.length (combine (doc0 :: documents) embeddings)
               = List.length (doc0 :: documents))
    by (rewrite length_combine; lia).
  rewrite prepare_ids_supplied by (rewrite Hc; lia).
  now rewrite Hc.
Qed.

(** X14. The ids [add_documents] generates are pairwise distinct within
    one call: the position is part of each id, so equal contents (or equal
    hashes) do not collide. *)
Theorem add_documents_generated_ids_are_distinct :
  forall (St : Type) (B : Store.Backend St) (documents : list Store.Document)
         (w : Store.world St) (embeddings : list Store.vector) (s1 : St),
    documents <> [] ->
    Store.embed_documents (map Store.page_content documents) (Store.state w)
    = (Ok embeddings, s1) ->
    (forall cls s2,
        Store.insert_many
          (Store.prepare None 0 (combine documents embeddings)) s1
        <> (Raise (BaseException cls), s2)) ->
    exists out,
      fst (Store.add_documents documents None w) = Ok out /\ NoDup out.
Proof.
  intros St B documents w embeddings s1 Hne Hemb Hbulk.
  destruct documents as [|doc0 documents]; [congruence|].
  eexists. split; [exact (add_documents_ids _ _ _ _ _ _ Hemb Hbulk)|].
  apply prepare_generated_distinct.
Qed.

(** *** [similarity_search] and [_fallback_search] *)

Section SearchFacts.

Import Store.

Context {St : Type} {B : Backend St}.

Lemma documents_of_each (f : hit -> result Document) (hits : list hit)
      (docs : list Document) :
  documents_of f hits = Ok docs -> Forall2 (fun h d => f h = Ok d) hits docs.
Proof.
  revert docs. induction hits as [|h r IH]; intros docs; simpl.
  - intros [= <-]. constructor.
  - destruct (f h) as [d|e] eqn:E; [|discriminate].
    destruct (documents_of f r) as [ds|e]; [|discriminate].
    intros [= <-]. constructor; auto.
Qed.

(** One result without content spoils the whole conversion. *)
Lemma documents_of_missing_content (f : hit -> result Document)
      (hits : list hit) (h : hit) :
  (forall h', hit_content h' = None -> f h' = Raise (Exception "KeyError")) ->
  (forall h' e, f h' = Raise e -> e = Exception "KeyError") ->
  In h hits -> hit_content h = None ->
  documents_of f hits = Raise (Exception "KeyError").
Proof.
  intros Hnone Honly Hin Hh. induction hits as [|h0 r IH]; [destruct Hin|].
  simpl. destruct (f h0) as [d|e] eqn:E.
  - destruct Hin as [->|Hin]; [rewrite (Hnone h Hh) in E; discriminate|].
    now rewrite (IH Hin).
  - now rewrite (Honly h0 e E).
Qed.

Lemma scored_document_raises (h : hit) :
  hit_content h = None -> scored_document h = Raise (Exception "KeyError").
Proof. unfold scored_document. now intros ->. Qed.

Lemma scored_document_only_key_error (h : hit) (e : exn) :
  scored_document h = Raise e -> e = Exception "KeyError".
Proof. unfold scored_document. destruct (hit_content h); congruence. Qed.

Lemma plain_document_raises (h : hit) :
  hit_content h = None -> plain_document h = Raise (Exception "KeyError").
Proof. unfold plain_document. now intros ->. Qed.

Lemma plain_document_only_key_error (h : hit) (e : exn) :
  plain_document h = Raise e -> e = Exception "KeyError".
Proof. unfold plain_document. destruct (hit_content h); congruence. Qed.

End SearchFacts.

(** X15. The documents of a successful vector search are the search
    results in the same order, one for one; each carries the content of
    its result and a ["score"] entry, the score of the result or 0 when it
    has none, which replaces a stored ["score"]; the other metadata
    entries are the stored ones. *)
Theorem vector_search_documents_carry_scores :
  forall (St : Type) (B : Store.Backend St) (v : Store.vector) (k : Z)
         (w w2 : Store.world St) (hits : list Store.hit) (s2 : St)
         (docs : list Store.Document),
    Store.aggregate v k (Store.state w) = (Ok hits, s2) ->
    Store.vector_search v k w = (Ok docs, w2) ->
    Forall2
      (fun h d =>
         Store.hit_content h = Some (Store.page_content d)
         /\ Py.dict_get "score" (Store.metadata d)
            = Some (Store.or_default (Store.hit_score h) (Store.VInt 0))
         /\ forall key,
              key <> "score"%string ->
              Py.dict_get key (Store.metadata d)
              = Py.dict_get key (Store.or_default (Store.hit_metadata h) []))
      hits docs.
Proof.
  intros St B v k w w2 hits s2 docs Hagg Hvs.
  unfold Store.vector_search, Store.bind, Store.lift in Hvs.
  rewrite send_world, Hagg in Hvs. cbn [fst snd] in Hvs.
  destruct (Store.documents_of Store.scored_document hits) as [ds|e] eqn:E;
    [|discriminate].
  injection Hvs as <- _.
  apply documents_of_each in E.
  clear Hagg. induction E as [|h d hs ds Hd _ IH]; [constructor|].
  constructor; [|exact IH].
  unfold Store.scored_document in Hd.
  destruct (Store.hit_content h) as [c|]; [|discriminate].
  injection Hd as <-. cbn [Store.page_content Store.metadata].
  split; [reflexivity|]. split.
  - apply dict_get_set_same.
  - intros key Hne. now apply dict_get_set_other.
Qed.

(** X16. The conversion of the vector results is all or nothing: if one
    result has no content, all of them are dropped and the search is
    answered by [_fallback_search], run after the vector request. *)
Theorem result_without_content_sends_search_to_fallback :
  forall (St : Type) (B : Store.Backend St) (query : string) (k : Z)
         (w : Store.world St) (v : Store.vector) (s1 s2 : St)
         (hits : list Store.hit) (h : Store.hit),
    Store.embed_query query (Store.state w) = (Ok v, s1) ->
    Store.aggregate v k s1 = (Ok hits, s2) ->
    In h hits ->
    Store.hit_content h = None ->
    Store.similarity_search query k w
    = Store._fallback_search query k
        (Store.mkWorld s2
           (Store.calls w ++ [Store.EmbedQuery query; Store.Aggregate v k])).
Proof.
  intros St B query k w v s1 s2 hits h Hemb Hagg Hin Hh.
  rewrite (similarity_search_embedded query k w v s1 Hemb).
  unfold Store.try_except, Store.vector_search, Store.bind, Store.lift.
  rewrite send_world. cbn [Store.state Store.calls]. rewrite Hagg.
  cbn [fst snd].
  rewrite (documents_of_missing_content Store.scored_document hits h
             scored_document_raises scored_document_only_key_error Hin Hh).
  cbn [is_Exception]. now rewrite <- app_assoc.
Qed.

(** X17. When the vector search fails with an [Exception] and the lexical
    search fails too, by raising anything or by returning a result without
    content, [similarity_search] returns the empty list. *)
Theorem both_searches_failing_gives_empty_list :
  forall (St : Type) (B : Store.Backend St) (query : string) (k : Z)
         (w : Store.world St) (v : Store.vector) (s1 s2 : St) (e : exn),
    Store.embed_query query (Store.state w) = (Ok v, s1) ->
    Store.aggregate v k s1 = (Raise e, s2) ->
    is_Exception e = true ->
    ((exists e', fst (Store.find_text query k s2) = Raise e')
     \/ (exists hits h,
            fst (Store.find_text query k s2) = Ok hits
            /\ In h hits /\ Store.hit_content h = None)) ->
    fst (Store.similarity_search query k w) = Ok [].
Proof.
  intros St B query k w v s1 s2 e Hemb Hagg He Hfind.
  rewrite (similarity_search_embedded query k w v s1 Hemb).
  unfold Store.try_except, Store.vector_search, Store.bind at 1, Store.lift.
  rewrite send_world. cbn [Store.state Store.calls]. rewrite Hagg.
  cbn [fst snd]. rewrite He.
  unfold Store._fallback_search, Store.try_except, Store.bind, Store.lift,
    Store.ret.
  rewrite send_world. cbn [Store.state Store.calls fst snd].
  destruct Hfind as [[e' Hf]|(hits & h & Hf & Hin & Hh)]; rewrite Hf.
  - reflexivity.
  - rewrite (documents_of_missing_content Store.plain_document hits h
               plain_document_raises plain_document_only_key_error Hin Hh).
    reflexivity.
Qed.

(** X18. [similarity_search] makes at most three requests, each at most
    once and in a fixed order: the embedding of the query, then the vector
    search, then the lexical search; the lexical search is never made
    without a vector search before it. *)
Theorem similarity_search_request_order :
  forall (St : Type) (B : Store.Backend St) (query : string) (k : Z)
         (w : Store.world St),
    let after := Store.calls (snd (Store.similarity_search query k w)) in
    after = Store.calls w ++ [Store.EmbedQuery query]
    \/ (exists v,
           after = Store.calls w
                     ++ [Store.EmbedQuery query; Store.Aggregate v k])
    \/ (exists v,
           after = Store.calls w
                     ++ [Store.EmbedQuery query; Store.Aggregate v k;
                         Store.FindText query k]).
Proof.
  intros St B query k w after. unfold after.
  destruct (Store.embed_query query (Store.state w)) as [[v|e] s1] eqn:E.
  - rewrite (similarity_search_embedded query k w v s1 E).
    unfold Store.try_except.
    pose proof (vector_search_calls v k
                  (Store.mkWorld s1 (Store.calls w ++ [Store.EmbedQuery query])))
      as Hc.
    destruct (Store.vector_search v k _) as [[docs|e] w2];
      cbn [snd Store.calls] in *.
    + right. left. exists v. rewrite Hc. now rewrite <- app_assoc.
    + destruct (is_Exception e).
      * right. right. exists v. rewrite fallback_search_world.
        cbn [Store.calls]. rewrite Hc. now rewrite <- !app_assoc.
      * right. left. exists v. cbn [snd]. rewrite Hc.
        now rewrite <- app_assoc.
  - left. unfold Store.similarity_search, Store.bind.
    rewrite send_world, E. reflexivity.
Qed.

(** ** config.py *)

Lemma truthy_iff (o : option string) :
  Conf.truthy o = true <-> exists key, o = Some key /\ key <> EmptyString.
Proof.
  unfold Conf.truthy, Conf.nonempty. destruct o as [s|]; split.
  - intros H. exists s. split; [reflexivity|].
    apply negb_true_iff in H. now apply String.eqb_neq.
  - intros (key & [= <-] & Hne). apply negb_true_iff. now apply String.eqb_neq.
  - discriminate.
  - intros (key & H & _). discriminate H.
Qed.

(** When [validate] returns. *)
Lemma validate_accepts :
  forall c : Conf.Config,
    Conf.validate c = Conf.Returns
    <-> (Conf.cosmos_connection_string c <> EmptyString
         /\ ((Conf.engine c = "google"%string
              /\ exists key, Conf.google_api_key c = Some key
                             /\ key <> EmptyString)
             \/ (Conf.engine c = "openai"%string
                 /\ exists key, Conf.openai_api_key c = Some key
                                /\ key <> EmptyString))).
Proof.
  intros c. unfold Conf.validate, Conf.nonempty. cbn [existsb].
  destruct (String.eqb_spec (Conf.cosmos_connection_string c) EmptyString)
    as [Hcs|Hcs]; cbn [negb].
  { split; [discriminate | intros [H _]; contradiction]. }
  destruct (String.eqb_spec (Conf.engine c) "google") as [Hg|Hg];
    cbn [andb orb negb].
  - destruct (Conf.truthy (Conf.google_api_key c)) eqn:Hk; cbn [negb].
    + apply truthy_iff in Hk.
      assert (Ho : String.eqb (Conf.engine c) "openai" = false)
        by (rewrite Hg; reflexivity).
      rewrite Ho. cbn [andb]. split; [intros _|reflexivity].
      split; [exact Hcs|]. left. auto.
    + split; [discriminate|].
      intros [_ [[_ H]|[H _]]].
      * apply truthy_iff in H. congruence.
      * rewrite Hg in H. discriminate H.
  - destruct (String.eqb_spec (Conf.engine c) "openai") as [Ho|Ho];
      cbn [andb orb negb].
    + destruct (Conf.truthy (Conf.openai_api_key c)) eqn:Hk; cbn [negb].
      * apply truthy_iff in Hk. split; [intros _|reflexivity].
        split; [exact Hcs|]. right. auto.
      * split; [discriminate|].
        intros [_ [[H _]|[_ H]]]; [contradiction|].
        apply truthy_iff in H. congruence.
    + split; [discriminate|].
      intros [_ [[H _]|[H _]]]; contradiction.
Qed.

(** X19. [validate] returns without raising exactly when the connection
    string is not empty and the engine is ["google"] with a non-empty
    Google key, or ["openai"] with a non-empty OpenAI key. *)
Theorem validate_returns_iff :
  forall c : Conf.Config,
    Conf.validate c = Conf.Returns
    <-> (Conf.cosmos_connection_string c <> EmptyString
         /\ ((Conf.engine c = "google"%string
              /\ exists key, Conf.google_api_key c = Some key
                             /\ key <> EmptyString)
             \/ (Conf.engine c = "openai"%string
                 /\ exists key, Conf.openai_api_key c = Some key
                                /\ key <> EmptyString))).
Proof. exact validate_accepts. Qed.

(** X20. A configuration that [validate] accepts gives models of the
    configured engine, and the language model and the embedding model are
    both constructed with the same non-empty API key. *)
Theorem validated_config_gives_models_with_key :
  forall c : Conf.Config,
    Conf.validate c = Conf.Returns ->
    exists key,
      key <> EmptyString
      /\ Models.llm_key (fst (Models._initialize_models c)) = Some key
      /\ Models.embeddings_key (snd (Models._initialize_models c)) = Some key
      /\ ((Conf.engine c = "google"%string
           /\ Models._initialize_models c = Models._init_google_models c)
          \/ (Conf.engine c = "openai"%string
              /\ Models._initialize_models c = Models._init_openai_models c)).
Proof.
  intros c Hv. apply validate_accepts in Hv.
  destruct Hv as [_ [[He (key & Hk & Hne)]|[He (key & Hk & Hne)]]];
    exists key; unfold Models._initialize_models; rewrite He;
    cbn [String.eqb Ascii.eqb Bool.eqb];
    unfold Models._init_google_models, Models._init_openai_models;
    cbn [fst snd Models.llm_key Models.embeddings_key]; rewrite Hk.
  - repeat split; auto.
  - repeat split; auto.
Qed.

(** ** vector_store_manager.py: connection and index *)

Section ConnFacts.

Import Conn.

Context {St : Type} {Srv : Server St}.
Implicit Types (w : world St).

Lemma conn_send_world {A : Type} (r : request) (f : St -> result A * St) w :
  send r f w
  = (fst (f (server w)),
     mkWorld (self w) (snd (f (server w))) (requests w ++ [r])).
Proof. unfold send. now destruct (f (server w)). Qed.

(** [_setup_vector_index] lets no [OperationFailure] out. *)
Lemma setup_vector_index_catches (config : Conf.Config) w (e : exn) :
  fst (_setup_vector_index config w) = Raise e ->
  isinstance e "OperationFailure" = false.
Proof.
  unfold _setup_vector_index, try_except.
  match goal with |- context [match ?m with _ => _ end] =>
    destruct m as [[[]|e'] w'] end; cbn [fst].
  - discriminate.
  - destruct (isinstance e' "OperationFailure") eqn:E; cbn.
    + discriminate.
    + now intros [= <-].
Qed.

End ConnFacts.

(** X21. [_setup_vector_index] creates the index only when it is missing:
    on a connected store whose index list is well formed, it sends the
    list request and then a [create_index] on [("embedding",
    "cosmosSearch")] under the configured name exactly when no listed
    index has that name. *)
Theorem setup_vector_index_creates_only_when_missing :
  forall (St : Type) (Srv : Conn.Server St) (config : Conf.Config)
         (w : Conn.world St) (target : string * string)
         (indexes : list (Py.dict Store.value)) (names : list Store.value)
         (s1 : St),
    Conn.collection (Conn.self w) = Some target ->
    Conn.list_indexes (Conn.server w) = (Ok indexes, s1) ->
    Conn.index_names indexes = Ok names ->
    let name := Conf.cosmos_vector_index_name config in
    Conn.requests (snd (Conn._setup_vector_index config w))
    = Conn.requests w
        ++ Conn.ListIndexes
           :: (if existsb (Conn.is_name name) names then []
               else [Conn.CreateIndex
                       [("embedding", "cosmosSearch")]%string name]).
Proof.
  intros St Srv config w target indexes names s1 Hc Hl Hn name.
  unfold Conn._setup_vector_index, Conn.try_except. rewrite Hc.
  unfold Conn.bind, Conn.lift. rewrite conn_send_world, Hl.
  cbn [fst snd]. rewrite Hn. fold name.
  destruct (existsb (Conn.is_name name) names); cbn [negb].
  - cbn. reflexivity.
  - rewrite conn_send_world. cbn [Conn.server Conn.requests Conn.self].
    destruct (fst (Conn.create_index _ name s1)) as [[]|e]; cbn [snd].
    + cbn. now rewrite <- app_assoc.
    + destruct (Conn.isinstance e "OperationFailure"); cbn;
        now rewrite <- app_assoc.
Qed.

(** X22. [_setup_vector_index] never raises an [OperationFailure]: a
    refusal of the list or of the create request is swallowed and the call
    returns; only errors of other classes reach the caller.  In
    particular a refused [create_index] makes the call return normally. *)
Theorem setup_vector_index_swallows_operation_failure :
  forall (St : Type) (Srv : Conn.Server St) (config : Conf.Config)
         (w : Conn.world St),
    (forall e, fst (Conn._setup_vector_index config w) = Raise e ->
               Conn.isinstance e "OperationFailure" = false)
    /\ (forall target e s1,
           Conn.collection (Conn.self w) = Some target ->
           Conn.list_indexes (Conn.server w) = (Raise e, s1) ->
           Conn.isinstance e "OperationFailure" = true ->
           Conn._setup_vector_index config w
           = (Ok tt,
              Conn.mkWorld (Conn.self w) s1
                (Conn.requests w ++ [Conn.ListIndexes])))
    /\ (forall target indexes names s1 e s2,
           Conn.collection (Conn.self w) = Some target ->
           Conn.list_indexes (Conn.server w) = (Ok indexes, s1) ->
           Conn.index_names indexes = Ok names ->
           existsb (Conn.is_name (Conf.cosmos_vector_index_name config)) names
           = false ->
           Conn.create_index [("embedding", "cosmosSearch")]%string
             (Conf.cosmos_vector_index_name config) s1 = (Raise e, s2) ->
           Conn.isinstance e "OperationFailure" = true ->
           fst (Conn._setup_vector_index config w) = Ok tt).
Proof.
  intros St Srv config w. split; [|split].
  - intros e. apply setup_vector_index_catches.
  - intros target e s1 Hc Hl He.
    unfold Conn._setup_vector_index, Conn.try_except. rewrite Hc.
    unfold Conn.bind. rewrite conn_send_world, Hl. cbn [fst snd].
    now rewrite He.
  - intros target indexes names s1 e s2 Hc Hl Hn Hex Hcr He.
    unfold Conn._setup_vector_index, Conn.try_except. rewrite Hc.
    unfold Conn.bind, Conn.lift. rewrite conn_send_world, Hl.
    cbn [fst snd]. rewrite Hn, Hex. cbn [negb].
    rewrite conn_send_world. cbn [Conn.server]. rewrite Hcr. cbn [fst snd].
    now rewrite He.
Qed.

(** X23. The constructor connects before it touches the index.  If the
    client cannot be made or the ping fails, [__init__] raises that error
    and no index request is sent; if both succeed, the database and the
    collection are set from the configuration and the constructor goes on
    with [_setup_vector_index]. *)
Theorem init_connects_before_index :
  forall (St : Type) (Srv : Conn.Server St) (config : Conf.Config)
         (w : Conn.world St),
    let cs := Conf.cosmos_connection_string config in
    let dbn := Conf.cosmos_database_name config in
    let cn := Conf.cosmos_collection_name config in
    (forall e s1,
        Conn.mongo_client cs (Conn.server w) = (Raise e, s1) ->
        Conn.__init__ config w
        = (Raise e,
           Conn.mkWorld (Conn.mkStore None None None) s1
             (Conn.requests w ++ [Conn.NewClient cs])))
    /\ (forall s1 e s2,
           Conn.mongo_client cs (Conn.server w) = (Ok tt, s1) ->
           Conn.ping s1 = (Raise e, s2) ->
           Conn.__init__ config w
           = (Raise e,
              Conn.mkWorld (Conn.mkStore (Some cs) None None) s2
                (Conn.requests w ++ [Conn.NewClient cs; Conn.Ping])))
    /\ (forall s1 s2,
           Conn.mongo_client cs (Conn.server w) = (Ok tt, s1) ->
           Conn.ping s1 = (Ok tt, s2) ->
           Conn.__init__ config w
           = Conn._setup_vector_index config
               (Conn.mkWorld
                  (Conn.mkStore (Some cs) (Some dbn) (Some (dbn, cn))) s2
                  (Conn.requests w ++ [Conn.NewClient cs; Conn.Ping]))).
Proof.
  intros St Srv config w cs dbn cn. split; [|split].
  - intros e s1 Hm.
    unfold Conn.__init__, Conn.bind at 1 2, Conn.assign at 1.
    unfold Conn._connect, Conn.try_except, Conn.bind at 1.
    rewrite conn_send_world. cbn [Conn.server Conn.requests Conn.self].
    fold cs. rewrite Hm. cbn [fst snd].
    destruct (Conn.isinstance e "ConnectionFailure"); reflexivity.
  - intros s1 e s2 Hm Hp.
    unfold Conn.__init__, Conn.bind at 1 2, Conn.assign at 1.
    unfold Conn._connect, Conn.try_except, Conn.bind, Conn.assign.
    rewrite conn_send_world. cbn [Conn.server Conn.requests Conn.self].
    fold cs. rewrite Hm. cbn [fst snd].
    rewrite conn_send_world. cbn [Conn.server Conn.requests Conn.self].
    rewrite Hp. cbn [fst snd Conn.client Conn.db Conn.collection].
    rewrite <- app_assoc.
    destruct (Conn.isinstance e "ConnectionFailure"); reflexivity.
  - intros s1 s2 Hm Hp.
    unfold Conn.__init__, Conn.bind at 1 2, Conn.assign at 1.
    unfold Conn._connect, Conn.try_except, Conn.bind, Conn.assign.
    rewrite conn_send_world. cbn [Conn.server Conn.requests Conn.self].
    fold cs. rewrite Hm. cbn [fst snd].
    rewrite conn_send_world. cbn [Conn.server Conn.requests Conn.self].
    rewrite Hp. cbn [fst snd Conn.client Conn.db Conn.collection].
    rewrite <- app_assoc. reflexivity.
Qed.

(** ** document_processor.py and the ingestion path *)

Section ProcessorFacts.

Context {T : Processor.TextSplitter}.

Lemma chunk_documents_contents (md : Py.dict Store.value) (total i : Z)
      (chunks : list string) :
  map Store.page_content (Processor.chunk_documents md total i chunks) = chunks.
Proof.
  revert i. induction chunks as [|c r IH]; intros i; simpl; [reflexivity|].
  now rewrite IH.
Qed.

Lemma chunk_documents_nth (md : Py.dict Store.value) (total i : Z)
      (chunks : list string) (j : nat) (chunk : string) :
  nth_error chunks j = Some chunk ->
  nth_error (Processor.chunk_documents md total i chunks) j
  = Some (Store.mkDocument chunk
            (Py.dict_set "total_chunks" (Store.VInt total)
               (Py.dict_set "chunk_index" (Store.VInt (i + Z.of_nat j)) md))).
Proof.
  revert i j. induction chunks as [|c r IH]; intros i j H.
  - destruct j; discriminate.
  - destruct j as [|j]; simpl in H.
    + injection H as ->. cbn [Processor.chunk_documents nth_error].
      now rewrite Z.add_0_r.
    + cbn [Processor.chunk_documents nth_error]. rewrite (IH (i + 1) j H).
      replace (i + 1 + Z.of_nat j) with (i + Z.of_nat (S j)) by lia.
      reflexivity.
Qed.

Lemma process_text_contents (text : string)
      (md : option (Py.dict Store.value)) :
  text <> EmptyString ->
  map Store.page_content (Processor.process_text text md)
  = Processor.split_text text.
Proof.
  intros Hne. unfold Processor.process_text.
  apply String.eqb_neq in Hne. rewrite Hne.
  apply chunk_documents_contents.
Qed.

End ProcessorFacts.

(** X24. [process_text] makes one document per chunk, in order; document
    [j] has the text of chunk [j], ["chunk_index"] [j] and
    ["total_chunks"] the number of chunks, also when the caller's metadata
    already had these keys, and keeps every other metadata entry. *)
Theorem process_text_numbers_chunks :
  forall (T : Processor.TextSplitter) (text : string)
         (md : option (Py.dict Store.value)),
    text <> EmptyString ->
    let chunks := Processor.split_text text in
    let docs := Processor.process_text text md in
    List.length docs = List.length chunks
    /\ forall j chunk,
         nth_error chunks j = Some chunk ->
         exists d,
           nth_error docs j = Some d
           /\ Store.page_content d = chunk
           /\ Py.dict_get "chunk_index" (Store.metadata d)
              = Some (Store.VInt (Z.of_nat j))
           /\ Py.dict_get "total_chunks" (Store.metadata d)
              = Some (Store.VInt (Py.len chunks))
           /\ forall key,
                key <> "chunk_index"%string -> key <> "total_chunks"%string ->
                Py.dict_get key (Store.metadata d)
                = Py.dict_get key (Store.or_default md []).
Proof.
  intros T text md Hne chunks docs.
  split.
  - unfold docs. rewrite <- (length_map Store.page_content).
    now rewrite process_text_contents.
  - intros j chunk Hj. unfold docs, Processor.process_text.
    apply String.eqb_neq in Hne. rewrite Hne. fold chunks.
    rewrite (chunk_documents_nth _ _ 0 chunks j chunk Hj).
    eexists. split; [reflexivity|].
    cbn [Store.page_content Store.metadata]. repeat split.
    + rewrite dict_get_set_other by discriminate.
      now rewrite dict_get_set_same.
    + apply dict_get_set_same.
    + intros key H1 H2. now rewrite !dict_get_set_other by assumption.
Qed.

(** X25. Ingestion with nothing to ingest makes no request: [add_text]
    with an empty text, or with a text that splits into no chunk, and
    [add_documents] with documents that split into nothing all return the
    empty id list and leave the world as it was. *)
Theorem ingesting_nothing_sends_nothing :
  forall (St : Type) (B : Store.Backend St) (T : Processor.TextSplitter)
         (w : Store.world St),
    (forall text md,
        text = EmptyString \/ Processor.split_text text = [] ->
        Ingest.add_text text md w = (Ok [], w))
    /\ (forall documents,
           Processor.process_documents documents = [] ->
           Ingest.add_documents documents w = (Ok [], w)).
Proof.
  intros St B T w. split.
  - intros text md H. unfold Ingest.add_text.
    assert (E : Processor.process_text text md = []).
    { unfold Processor.process_text.
      destruct (String.eqb text EmptyString) eqn:Et; [reflexivity|].
      destruct H as [->|H]; [discriminate Et|]. now rewrite H. }
    now rewrite E.
  - intros documents H. unfold Ingest.add_documents. now rewrite H.
Qed.

(** X26. When every chunk of a text gets an embedding and the bulk path
    does not end in a non-[Exception], [add_text] returns exactly one id
    per chunk, all distinct; the id of chunk [j] is
    ["doc_<j>_<hash of the chunk>"]. *)
Theorem add_text_returns_one_id_per_chunk :
  forall (St : Type) (B : Store.Backend St) (T : Processor.TextSplitter)
         (text : string) (md : option (Py.dict Store.value))
         (w : Store.world St) (embeddings : list Store.vector) (s1 : St),
    text <> EmptyString ->
    Processor.split_text text <> [] ->
    Store.embed_documents (Processor.split_text text) (Store.state w)
    = (Ok embeddings, s1) ->
    List.length embeddings = List.length (Processor.split_text text) ->
    (forall cls s2,
        Store.insert_many
          (Store.prepare None 0
             (combine (Processor.process_text text md) embeddings)) s1
        <> (Raise (BaseException cls), s2)) ->
    exists out,
      fst (Ingest.add_text text md w) = Ok out
      /\ List.length out = List.length (Processor.split_text text)
      /\ NoDup out
      /\ forall j chunk,
           nth_error (Processor.split_text text) j = Some chunk ->
           nth_error out j
           = Some ("doc_" ++ Py.str_of_int (Z.of_nat j) ++ "_"
                     ++ Py.str_of_int (Store.hash chunk))%string.
Proof.
  intros St B T text md w embeddings s1 Hne Hchunks Hemb Hlen Hbulk.
  unfold Ingest.add_text.
  pose proof (process_text_contents text md Hne) as Hc.
  set (docs := Processor.process_text text md) in *.
  assert (Hd : docs <> []).
  { intros E. rewrite E in Hc. simpl in Hc. congruence. }
  rewrite <- Hc in Hemb.
  destruct docs as [|doc0 docs'] eqn:Ed; [congruence|].
  exists (map Store._id (Store.prepare None 0
                           (combine (doc0 :: docs') embeddings))).
  split; [exact (add_documents_ids _ _ _ _ _ _ Hemb Hbulk)|].
  assert (Hl : List.length (doc0 :: docs')
               = List.length (Processor.split_text text))
    by (rewrite <- Hc; now rewrite length_map).
  split; [|split].
  - rewrite length_map, prepare_length, length_combine. lia.
  - apply prepare_generated_distinct.
  - intros j chunk Hj.
    assert (Hdoc : exists d, nth_error (doc0 :: docs') j = Some d
                             /\ Store.page_content d = chunk).
    { rewrite <- Hc in Hj. rewrite nth_error_map in Hj.
      destruct (nth_error (doc0 :: docs') j) as [d|]; [|discriminate].
      injection Hj as Hj. eauto. }
    destruct Hdoc as (d & Hnth & Hpc).
    assert (Hlt : (j < List.length embeddings)%nat).
    { rewrite Hlen, <- Hl. apply nth_error_Some. congruence. }
    destruct (nth_error_combine_some _ embeddings j d Hnth Hlt) as [emb Hcb].
    rewrite nth_error_map, (prepare_nth None 0 j _ d emb Hcb).
    cbn [option_map Store._id Store.doc_id Nat.add]. now rewrite Hpc.
Qed.

(** ** main.py: reading a text *)

Lemma ends_blank_snoc (acc : list string) (x : string) :
  Main.ends_blank (acc ++ [x]) = String.eqb x EmptyString.
Proof.
  unfold Main.ends_blank. rewrite last_last.
  now destruct acc.
Qed.

Lemma no_blank_pair_after_blank (acc r : list string) :
  Main.no_blank_pair (acc ++ EmptyString :: r) = true ->
  Main.ends_blank acc = false.
Proof.
  induction acc as [|a acc IH] using rev_ind; [reflexivity|].
  rewrite <- app_assoc. cbn [app]. rewrite ends_blank_snoc.
  intros H. destruct (String.eqb_spec a EmptyString) as [->|]; [|reflexivity].
  exfalso. clear IH. induction acc as [|b acc IH]; simpl in H.
  - discriminate H.
  - destruct (acc ++ EmptyString :: EmptyString :: r) eqn:E.
    + destruct acc; discriminate E.
    + apply andb_true_iff in H. destruct H as [_ H]. auto.
Qed.

Lemma read_lines_until_blank_pair (ls acc rest : list string) :
  Main.no_blank_pair (acc ++ ls) = true ->
  Main.ends_blank (acc ++ ls) = false ->
  Main.read_lines (ls ++ EmptyString :: EmptyString :: rest) acc
  = (Ok (acc ++ ls ++ [EmptyString]), rest).
Proof.
  revert acc. induction ls as [|x ls IH]; intros acc Hp He.
  - rewrite app_nil_r in *. cbn [app Main.read_lines].
    rewrite He. cbn [String.eqb andb].
    now rewrite ends_blank_snoc.
  - cbn [app Main.read_lines].
    assert (Hx : String.eqb x EmptyString && Main.ends_blank acc = false).
    { destruct (String.eqb_spec x EmptyString) as [->|]; [|reflexivity].
      cbn [andb]. now apply (no_blank_pair_after_blank acc ls). }
    rewrite Hx.
    replace (acc ++ x :: ls ++ [EmptyString])
      with ((acc ++ [x]) ++ ls ++ [EmptyString])
      by (now rewrite <- app_assoc).
    apply IH; rewrite <- app_assoc; assumption.
Qed.

(** X27. Typing a text and then two empty lines gives that text back:
    for lines with no two empty ones in a row and no empty last line,
    the loop stops at the second empty line, leaves what follows unread,
    and the text is the lines joined by newlines. *)
Theorem read_text_returns_typed_lines :
  forall (ls rest : list string),
    Main.no_blank_pair ls = true ->
    Main.ends_blank ls = false ->
    Main.read_text (ls ++ EmptyString :: EmptyString :: rest)
    = (Ok (String.concat Main.newline ls), rest).
Proof.
  intros ls rest Hp He. unfold Main.read_text.
  rewrite (read_lines_until_blank_pair ls [] rest Hp He).
  cbn [app]. now rewrite removelast_last.
Qed.

Lemma read_lines_without_blank_pair (input acc : list string) :
  Main.no_blank_pair input = true ->
  (Main.ends_blank acc = true -> hd "x"%string input <> EmptyString) ->
  Main.read_lines input acc = (Raise (Exception "EOFError"), []).
Proof.
  revert acc. induction input as [|x r IH]; intros acc Hp Hh; [reflexivity|].
  cbn [Main.read_lines].
  assert (Hx : String.eqb x EmptyString && Main.ends_blank acc = false).
  { destruct (String.eqb_spec x EmptyString) as [->|]; [|reflexivity].
    cbn [andb]. destruct (Main.ends_blank acc); [|reflexivity].
    exfalso. now apply Hh. }
  rewrite Hx. apply IH.
  - simpl in Hp. destruct r; [reflexivity|].
    apply andb_true_iff in Hp. tauto.
  - rewrite ends_blank_snoc. intros Hb. apply String.eqb_eq in Hb. subst x.
    simpl in Hp. destruct r as [|y r']; [discriminate|].
    apply andb_true_iff in Hp. destruct Hp as [Hp _].
    cbn [hd]. intros ->. discriminate Hp.
Qed.

(** X28. The loop ends only at two empty lines in a row: on an input
    without such a pair it reads to the end and raises [EOFError]. *)
Theorem read_text_without_blank_pair_raises :
  forall input : list string,
    Main.no_blank_pair input = true ->
    Main.read_text input = (Raise (Exception "EOFError"), []).
Proof.
  intros input Hp. unfold Main.read_text.
  rewrite (read_lines_without_blank_pair input [] Hp); [reflexivity|].
  discriminate.
Qed.

(** ** The hypotheses of the further properties hold on concrete runs *)


Lemma cache_without_capacity_witness :
  0 <= 0
  /\ Cache.cache (Cache.run Scenario.three_puts (Cache.__init__ 0 3600)) = [].
Proof.
  assert (H : 0 <= 0) by by_evaluation.
  split; [exact H|].
  exact (proj1 (cache_without_capacity_stores_nothing
                  unit 0 3600 Scenario.three_puts H)).
Defined.

Lemma put_existing_key_witness :
  Py.unique_keys (Cache.cache Scenario.full) = true
  /\ Cache.max_size Scenario.full <= Py.len (Cache.cache Scenario.full)
  /\ Py.min_by (Cache.timestamp_of (Cache.cache Scenario.full))
       (Py.keys (Cache.cache Scenario.full))
     = Some (Cache._generate_key "a" 5)
  /\ Py.dict_get (Cache._generate_key "b" 5) (Cache.cache Scenario.full)
     = Some (Cache.mkCacheEntry tt 2 3600)
  /\ Cache._generate_key "b" 5 <> Cache._generate_key "a" 5
  /\ Py.len (Cache.cache (snd (Cache.put 3 "b" tt 5 None Scenario.full)))
     = Py.len (Cache.cache Scenario.full) - 1.
Proof.
  assert (H1 : Py.unique_keys (Cache.cache Scenario.full) = true)
    by by_evaluation.
  assert (H2 : Cache.max_size Scenario.full
               <= Py.len (Cache.cache Scenario.full)) by by_evaluation.
  assert (H3 : Py.min_by (Cache.timestamp_of (Cache.cache Scenario.full))
                 (Py.keys (Cache.cache Scenario.full))
               = Some (Cache._generate_key "a" 5)) by by_evaluation.
  assert (H4 : Py.dict_get (Cache._generate_key "b" 5)
                 (Cache.cache Scenario.full)
               = Some (Cache.mkCacheEntry tt 2 3600)) by by_evaluation.
  assert (H5 : Cache._generate_key "b" 5 <> Cache._generate_key "a" 5)
    by by_evaluation.
  split; [exact H1|].
  split; [exact H2|].
  split; [exact H3|].
  split; [exact H4|].
  split; [exact H5|].
  exact (proj1 (proj2 (put_existing_key_on_full_cache_shrinks
                         unit Scenario.full 3 "b" 5 tt None _ _
                         H1 H2 H3 H4 H5))).
Defined.



Lemma put_with_negative_ttl_witness :
  (-1 < 0)%Q
  /\ (0 <= 0)%Q
  /\ Py.unique_keys (Cache.cache Scenario.fresh) = true
  /\ Cache.put 0 "sky" tt 5 (Some (-1)%Q) Scenario.fresh
     = (Ok tt, snd (Cache.put 0 "sky" tt 5 (Some (-1)%Q) Scenario.fresh))
  /\ fst (Cache.get 0 "sky" 5
            (snd (Cache.put 0 "sky" tt 5 (Some (-1)%Q) Scenario.fresh)))
     = None.
Proof.
  assert (H1 : (-1 < 0)%Q) by by_evaluation.
  assert (H2 : (0 <= 0)%Q) by by_evaluation.
  assert (H3 : Py.unique_keys (Cache.cache Scenario.fresh) = true)
    by by_evaluation.
  assert (H4 : Cache.put 0 "sky" tt 5 (Some (-1)%Q) Scenario.fresh
               = (Ok tt,
                  snd (Cache.put 0 "sky" tt 5 (Some (-1)%Q) Scenario.fresh)))
    by by_evaluation.
  split; [exact H1|].
  split; [exact H2|].
  split; [exact H3|].
  split; [exact H4|].
  exact (proj1 (put_with_negative_ttl_is_never_served
                  unit Scenario.fresh _ 0 0 (-1) "sky" 5 tt H1 H2 H3 H4)).
Defined.

Lemma key_ignores_whitespace_witness :
  Py.lstrip "  " = EmptyString
  /\ Py.lstrip " " = EmptyString
  /\ Cache._generate_key ("  " ++ "Sky" ++ " ") 5 = Cache._generate_key "Sky" 5.
Proof.
  assert (H1 : Py.lstrip "  " = EmptyString) by by_evaluation.
  assert (H2 : Py.lstrip " " = EmptyString) by by_evaluation.
  split; [exact H1|].
  split; [exact H2|].
  exact (proj2 (key_ignores_case_and_outer_whitespace "Sky" "  " " " 5 H1 H2)).
Defined.

Lemma embedding_error_witness :
  Sim.five <> []
  /\ Store.embed_documents (map Store.page_content Sim.five)
       (Store.state Cases.embedding_down)
     = (Raise (Exception "ProviderError"), Store.state Cases.embedding_down)
  /\ fst (Store.add_documents Sim.five None Cases.embedding_down)
     = Raise (Exception "ProviderError").
Proof.
  assert (H1 : Sim.five <> []) by by_evaluation.
  assert (H2 : Store.embed_documents (map Store.page_content Sim.five)
                 (Store.state Cases.embedding_down)
               = (Raise (Exception "ProviderError"),
                  Store.state Cases.embedding_down)) by by_evaluation.
  split; [exact H1|].
  split; [exact H2|].
  now rewrite (add_documents_embedding_error_inserts_nothing
                 Sim.sim Sim.sim_backend Sim.five None Cases.embedding_down
                 _ _ H1 H2).
Defined.

Lemma bulk_success_witness :
  Store.prepare None 0 (combine Sim.five (map Sim.embed
                                            (map Store.page_content Sim.five)))
  <> []
  /\ fst (Store.add_documents Sim.five None Cases.empty_world)
     = Ok (map Store._id
             (Store.prepare None 0
                (combine Sim.five
                   (map Sim.embed (map Store.page_content Sim.five))))).
Proof.
  assert (H1 : Store.prepare None 0
                 (combine Sim.five
                    (map Sim.embed (map Store.page_content Sim.five)))
               <> []) by by_evaluation.
  split; [exact H1|].
  rewrite (add_documents_bulk_success_sends_two_requests
             Sim.sim Sim.sim_backend Sim.five None Cases.empty_world
             (map Sim.embed (map Store.page_content Sim.five))
             (Store.state Cases.empty_world)
             (snd (Store.insert_many
                     (Store.prepare None 0
                        (combine Sim.five
                           (map Sim.embed (map Store.page_content Sim.five))))
                     (Store.state Cases.empty_world)))
             H1 eq_refl);
    by_evaluation.
Defined.

Lemma bulk_failure_witness :
  Store.prepare None 0 (combine Sim.five (map Sim.embed
                                            (map Store.page_content Sim.five)))
  <> []
  /\ is_Exception (Exception "BulkWriteError") = true
  /\ List.length
       (Store.calls (snd (Store.add_documents Sim.five None
                            (Sim.start Sim.two_of_five_rejected))))
     = 7%nat.
Proof.
  assert (H1 : Store.prepare None 0
                 (combine Sim.five
                    (map Sim.embed (map Store.page_content Sim.five)))
               <> []) by by_evaluation.
  split; [exact H1|]. split; [reflexivity|].
  rewrite (proj2 (add_documents_bulk_failure_retries_each
                    Sim.sim Sim.sim_backend Sim.five None
                    (Sim.start Sim.two_of_five_rejected)
                    (map Sim.embed (map Store.page_content Sim.five))
                    Sim.two_of_five_rejected Sim.two_of_five_rejected
                    (Exception "BulkWriteError")
                    H1 eq_refl eq_refl eq_refl)).
  by_evaluation.
Defined.

Lemma no_interrupt_in_simulation (docs : list Store.doc_dict) (cls : string)
      (s s2 : Sim.sim) :
  Sim.bulk_error s = None ->
  Store.insert_many docs s <> (Raise (BaseException cls), s2).
Proof. intros H. cbn. unfold Sim.failing. rewrite H. discriminate. Qed.

Lemma ids_follow_positions_witness :
  Sim.five <> []
  /\ exists out,
       fst (Store.add_documents Sim.five None Cases.empty_world) = Ok out
       /\ List.length out = 5%nat.
Proof.
  assert (H1 : Sim.five <> []) by by_evaluation.
  split; [exact H1|].
  destruct (add_documents_ids_follow_positions
              Sim.sim Sim.sim_backend Sim.five None Cases.empty_world
              (map Sim.embed (map Store.page_content Sim.five))
              (Store.state Cases.empty_world) H1 eq_refl
              (fun cls s2 =>
                 no_interrupt_in_simulation _ cls
                   (Store.state Cases.empty_world) s2 eq_refl))
    as (out & Hout & Hlen & _).
  exists out. split; [exact Hout | exact Hlen].
Defined.

Lemma supplied_ids_witness :
  Sim.five <> []
  /\ (List.length Sim.five <= List.length Cases.six_ids)%nat
  /\ fst (Store.add_documents Sim.five (Some Cases.six_ids) Cases.empty_world)
     = Ok (firstn (List.length Sim.five) Cases.six_ids).
Proof.
  assert (H1 : Sim.five <> []) by by_evaluation.
  assert (H2 : (List.length Sim.five <= List.length Cases.six_ids)%nat)
    by (vm_compute; lia).
  split; [exact H1|]. split; [exact H2|].
  exact (add_documents_returns_supplied_ids
           Sim.sim Sim.sim_backend Sim.five Cases.six_ids Cases.empty_world
           (map Sim.embed (map Store.page_content Sim.five))
           (Store.state Cases.empty_world) H1 eq_refl eq_refl H2
           (fun cls s2 =>
                 no_interrupt_in_simulation _ cls
                   (Store.state Cases.empty_world) s2 eq_refl)).
Defined.

Lemma generated_ids_distinct_witness :
  Sim.five <> []
  /\ exists out,
       fst (Store.add_documents Sim.five None Cases.empty_world) = Ok out
       /\ NoDup out.
Proof.
  assert (H1 : Sim.five <> []) by by_evaluation.
  split; [exact H1|].
  exact (add_documents_generated_ids_are_distinct
           Sim.sim Sim.sim_backend Sim.five Cases.empty_world
           (map Sim.embed (map Store.page_content Sim.five))
           (Store.state Cases.empty_world) H1 eq_refl
           (fun cls s2 =>
                 no_interrupt_in_simulation _ cls
                   (Store.state Cases.empty_world) s2 eq_refl)).
Defined.

Lemma vector_search_scores_witness :
  Store.aggregate (Sim.embed "sky color") 1 (Store.state Scenario.sky_world)
  = (Ok (Sim.top 1 (Some (Store.VNum 1)) (Store.state Scenario.sky_world)),
     Store.state Scenario.sky_world)
  /\ Store.vector_search (Sim.embed "sky color") 1 Scenario.sky_world
     = (Ok Cases.sky_hit_documents,
        snd (Store.vector_search (Sim.embed "sky color") 1 Scenario.sky_world))
  /\ Forall2
       (fun h d =>
          Store.hit_content h = Some (Store.page_content d)
          /\ Py.dict_get "score" (Store.metadata d)
             = Some (Store.or_default (Store.hit_score h) (Store.VInt 0))
          /\ forall key,
               key <> "score"%string ->
               Py.dict_get key (Store.metadata d)
               = Py.dict_get key (Store.or_default (Store.hit_metadata h) []))
       (Sim.top 1 (Some (Store.VNum 1)) (Store.state Scenario.sky_world))
       Cases.sky_hit_documents.
Proof.
  assert (H1 : Store.aggregate (Sim.embed "sky color") 1
                 (Store.state Scenario.sky_world)
               = (Ok (Sim.top 1 (Some (Store.VNum 1))
                        (Store.state Scenario.sky_world)),
                  Store.state Scenario.sky_world)) by by_evaluation.
  assert (H2 : Store.vector_search (Sim.embed "sky color") 1 Scenario.sky_world
               = (Ok Cases.sky_hit_documents,
                  snd (Store.vector_search (Sim.embed "sky color") 1
                         Scenario.sky_world))) by by_evaluation.
  split; [exact H1|]. split; [exact H2|].
  exact (vector_search_documents_carry_scores
           Sim.sim Sim.sim_backend _ 1 Scenario.sky_world _ _ _ _ H1 H2).
Defined.

Lemma result_without_content_witness :
  Store.embed_query "sky color" (Store.state Cases.broken_world)
  = (Ok (Sim.embed "sky color"), Store.state Cases.broken_world)
  /\ Store.aggregate (Sim.embed "sky color") 1 (Store.state Cases.broken_world)
     = (Ok [Store.mkHit None None None], Store.state Cases.broken_world)
  /\ In (Store.mkHit None None None) [Store.mkHit None None None]
  /\ Store.hit_content (Store.mkHit None None None) = None
  /\ Store.similarity_search "sky color" 1 Cases.broken_world
     = Store._fallback_search "sky color" 1
         (Store.mkWorld (Store.state Cases.broken_world)
            (Store.calls Cases.broken_world
               ++ [Store.EmbedQuery "sky color";
                   Store.Aggregate (Sim.embed "sky color") 1])).
Proof.
  assert (H1 : Store.embed_query "sky color" (Store.state Cases.broken_world)
               = (Ok (Sim.embed "sky color"), Store.state Cases.broken_world))
    by by_evaluation.
  assert (H2 : Store.aggregate (Sim.embed "sky color") 1
                 (Store.state Cases.broken_world)
               = (Ok [Store.mkHit None None None],
                  Store.state Cases.broken_world)) by by_evaluation.
  assert (H3 : In (Store.mkHit None None None) [Store.mkHit None None None])
    by (left; reflexivity).
  assert (H4 : Store.hit_content (Store.mkHit None None None) = None)
    by reflexivity.
  split; [exact H1|]. split; [exact H2|]. split; [exact H3|].
  split; [exact H4|].
  exact (result_without_content_sends_search_to_fallback
           Cases.broken Cases.broken_backend "sky color" 1 Cases.broken_world
           _ _ _ _ _ H1 H2 H3 H4).
Defined.

Lemma both_searches_failing_witness :
  Store.embed_query "sky color" (Store.state Scenario.both_searches_down)
  = (Ok (Sim.embed "sky color"), Store.state Scenario.both_searches_down)
  /\ Store.aggregate (Sim.embed "sky color") 1
       (Store.state Scenario.both_searches_down)
     = (Raise (Exception "OperationFailure"),
        Store.state Scenario.both_searches_down)
  /\ fst (Store.find_text "sky color" 1
            (Store.state Scenario.both_searches_down))
     = Raise (Exception "OperationFailure")
  /\ fst (Store.similarity_search "sky color" 1 Scenario.both_searches_down)
     = Ok [].
Proof.
  assert (H1 : Store.embed_query "sky color"
                 (Store.state Scenario.both_searches_down)
               = (Ok (Sim.embed "sky color"),
                  Store.state Scenario.both_searches_down)) by by_evaluation.
  assert (H2 : Store.aggregate (Sim.embed "sky color") 1
                 (Store.state Scenario.both_searches_down)
               = (Raise (Exception "OperationFailure"),
                  Store.state Scenario.both_searches_down)) by by_evaluation.
  assert (H3 : fst (Store.find_text "sky color" 1
                      (Store.state Scenario.both_searches_down))
               = Raise (Exception "OperationFailure")) by by_evaluation.
  split; [exact H1|]. split; [exact H2|]. split; [exact H3|].
  exact (both_searches_failing_gives_empty_list
           Sim.sim Sim.sim_backend "sky color" 1 Scenario.both_searches_down
           _ _ _ _ H1 H2 eq_refl
           (or_introl (ex_intro _ (Exception "OperationFailure") H3))).
Defined.

Lemma validated_config_witness :
  Conf.validate Cases.config = Conf.Returns
  /\ exists key,
       key <> EmptyString
       /\ Models.llm_key (fst (Models._initialize_models Cases.config))
          = Some key.
Proof.
  assert (H1 : Conf.validate Cases.config = Conf.Returns) by by_evaluation.
  split; [exact H1|].
  destruct (validated_config_gives_models_with_key Cases.config H1)
    as (key & Hne & Hk & _).
  exists key. split; [exact Hne | exact Hk].
Defined.

Lemma setup_vector_index_witness :
  Conn.collection (Conn.self (Cases.connected Cases.up))
  = Some ("rag_database", "documents")%string
  /\ Conn.list_indexes (Conn.server (Cases.connected Cases.up))
     = (Ok [Cases.default_index], Cases.up)
  /\ Conn.index_names [Cases.default_index] = Ok [Store.VStr "_id_"]
  /\ Conn.requests
       (snd (Conn._setup_vector_index Cases.config (Cases.connected Cases.up)))
     = [Conn.ListIndexes;
        Conn.CreateIndex [("embedding", "cosmosSearch")]%string "vector_index"].
Proof.
  assert (H1 : Conn.collection (Conn.self (Cases.connected Cases.up))
               = Some ("rag_database", "documents")%string) by by_evaluation.
  assert (H2 : Conn.list_indexes (Conn.server (Cases.connected Cases.up))
               = (Ok [Cases.default_index], Cases.up)) by by_evaluation.
  assert (H3 : Conn.index_names [Cases.default_index]
               = Ok [Store.VStr "_id_"]) by by_evaluation.
  split; [exact H1|]. split; [exact H2|]. split; [exact H3|].
  exact (setup_vector_index_creates_only_when_missing
           Cases.server Cases.server_sim Cases.config
           (Cases.connected Cases.up) _ _ _ _ H1 H2 H3).
Defined.

Lemma setup_vector_index_swallows_witness :
  Conn.list_indexes (Conn.server (Cases.connected Cases.no_listing))
  = (Raise (Exception "OperationFailure"), Cases.no_listing)
  /\ Conn.isinstance (Server:=Cases.server_sim) (Exception "OperationFailure")
       "OperationFailure" = true
  /\ fst (Conn._setup_vector_index Cases.config
            (Cases.connected Cases.no_listing)) = Ok tt
  /\ Conn.create_index [("embedding", "cosmosSearch")]%string
       (Conf.cosmos_vector_index_name Cases.config) Cases.read_only
     = (Raise (Exception "OperationFailure"), Cases.read_only)
  /\ fst (Conn._setup_vector_index Cases.config
            (Cases.connected Cases.read_only)) = Ok tt.
Proof.
  assert (H1 : Conn.list_indexes (Conn.server (Cases.connected Cases.no_listing))
               = (Raise (Exception "OperationFailure"), Cases.no_listing))
    by by_evaluation.
  assert (H2 : Conn.isinstance (Server:=Cases.server_sim)
                 (Exception "OperationFailure") "OperationFailure" = true)
    by by_evaluation.
  assert (H4 : Conn.create_index [("embedding", "cosmosSearch")]%string
                 (Conf.cosmos_vector_index_name Cases.config) Cases.read_only
               = (Raise (Exception "OperationFailure"), Cases.read_only))
    by by_evaluation.
  split; [exact H1|]. split; [exact H2|]. split; [|split; [exact H4|]].
  - rewrite (proj1 (proj2 (setup_vector_index_swallows_operation_failure
                             Cases.server Cases.server_sim Cases.config
                             (Cases.connected Cases.no_listing)))
                   _ _ _ eq_refl H1 H2).
    reflexivity.
  - exact (proj2 (proj2 (setup_vector_index_swallows_operation_failure
                           Cases.server Cases.server_sim Cases.config
                           (Cases.connected Cases.read_only)))
                 _ [Cases.default_index] [Store.VStr "_id_"] Cases.read_only
                 _ _ eq_refl eq_refl eq_refl eq_refl H4 H2).
Defined.

Lemma init_connects_witness :
  Conn.mongo_client (Conf.cosmos_connection_string Cases.config)
    (Conn.server (Cases.fresh_store Cases.unreachable))
  = (Raise (Exception "ConfigurationError"), Cases.unreachable)
  /\ fst (Conn.__init__ Cases.config (Cases.fresh_store Cases.unreachable))
     = Raise (Exception "ConfigurationError")
  /\ Conn.ping Cases.silent
     = (Raise (Exception "ConnectionFailure"), Cases.silent)
  /\ Conn.requests
       (snd (Conn.__init__ Cases.config (Cases.fresh_store Cases.silent)))
     = [Conn.NewClient "mongodb://host"; Conn.Ping]
  /\ Conn.ping Cases.up = (Ok tt, Cases.up)
  /\ fst (Conn.__init__ Cases.config (Cases.fresh_store Cases.up)) = Ok tt.
Proof.
  assert (H1 : Conn.mongo_client (Conf.cosmos_connection_string Cases.config)
                 (Conn.server (Cases.fresh_store Cases.unreachable))
               = (Raise (Exception "ConfigurationError"), Cases.unreachable))
    by by_evaluation.
  assert (H3 : Conn.ping Cases.silent
               = (Raise (Exception "ConnectionFailure"), Cases.silent))
    by by_evaluation.
  assert (H5 : Conn.ping Cases.up = (Ok tt, Cases.up)) by by_evaluation.
  split; [exact H1|]. split; [|split; [exact H3|split; [|split; [exact H5|]]]].
  - rewrite (proj1 (init_connects_before_index
                      Cases.server Cases.server_sim Cases.config
                      (Cases.fresh_store Cases.unreachable)) _ _ H1).
    reflexivity.
  - rewrite (proj1 (proj2 (init_connects_before_index
                             Cases.server Cases.server_sim Cases.config
                             (Cases.fresh_store Cases.silent)))
                   Cases.silent _ _ eq_refl H3).
    reflexivity.
  - rewrite (proj2 (proj2 (init_connects_before_index
                             Cases.server Cases.server_sim Cases.config
                             (Cases.fresh_store Cases.up)))
                   Cases.up Cases.up eq_refl H5).
    by_evaluation.
Defined.

Lemma process_text_witness :
  "The sky is blue."%string <> EmptyString
  /\ List.length (Processor.process_text (T:=Cases.whole_chunks)
                    "The sky is blue." None)
     = List.length (Processor.split_text (TextSplitter:=Cases.whole_chunks)
                      "The sky is blue.").
Proof.
  assert (H1 : "The sky is blue."%string <> EmptyString) by by_evaluation.
  split; [exact H1|].
  exact (proj1 (process_text_numbers_chunks Cases.whole_chunks
                  "The sky is blue." None H1)).
Defined.

Lemma ingesting_nothing_witness :
  Processor.split_text (TextSplitter:=Cases.whole_chunks) "   " = []
  /\ Ingest.add_text (T:=Cases.whole_chunks) "   " None Cases.empty_world
     = (Ok [], Cases.empty_world)
  /\ Processor.process_documents (T:=Cases.whole_chunks) [Sim.doc "  "] = []
  /\ Ingest.add_documents (T:=Cases.whole_chunks) [Sim.doc "  "]
       Cases.empty_world
     = (Ok [], Cases.empty_world).
Proof.
  assert (H1 : Processor.split_text (TextSplitter:=Cases.whole_chunks) "   "
               = []) by by_evaluation.
  assert (H3 : Processor.process_documents (T:=Cases.whole_chunks)
                 [Sim.doc "  "] = []) by by_evaluation.
  split; [exact H1|]. split; [|split; [exact H3|]].
  - exact (proj1 (ingesting_nothing_sends_nothing
                    Sim.sim Sim.sim_backend Cases.whole_chunks
                    Cases.empty_world) "   "%string None (or_intror H1)).
  - exact (proj2 (ingesting_nothing_sends_nothing
                    Sim.sim Sim.sim_backend Cases.whole_chunks
                    Cases.empty_world) [Sim.doc "  "] H3).
Defined.

Lemma add_text_witness :
  "The sky is blue."%string <> EmptyString
  /\ Processor.split_text (TextSplitter:=Cases.whole_chunks) "The sky is blue."
     <> []
  /\ exists out,
       fst (Ingest.add_text (T:=Cases.whole_chunks) "The sky is blue." None
              Cases.empty_world) = Ok out
       /\ List.length out = 1%nat.
Proof.
  assert (H1 : "The sky is blue."%string <> EmptyString) by by_evaluation.
  assert (H2 : Processor.split_text (TextSplitter:=Cases.whole_chunks)
                 "The sky is blue." <> []) by by_evaluation.
  split; [exact H1|]. split; [exact H2|].
  destruct (add_text_returns_one_id_per_chunk
              Sim.sim Sim.sim_backend Cases.whole_chunks "The sky is blue."
              None Cases.empty_world
              (map Sim.embed
                 (Processor.split_text (TextSplitter:=Cases.whole_chunks)
                    "The sky is blue."))
              (Store.state Cases.empty_world) H1 H2 eq_refl eq_refl
              (fun cls s2 =>
                 no_interrupt_in_simulation _ cls
                   (Store.state Cases.empty_world) s2 eq_refl))
    as (out & Hout & Hlen & _).
  exists out. split; [exact Hout | exact Hlen].
Defined.

Lemma read_text_witness :
  Main.no_blank_pair Cases.typed = true
  /\ Main.ends_blank Cases.typed = false
  /\ Main.read_text (Cases.typed ++ ["";  ""; "t1"]%string)
     = (Ok (String.concat Main.newline Cases.typed), ["t1"%string]).
Proof.
  assert (H1 : Main.no_blank_pair Cases.typed = true) by by_evaluation.
  assert (H2 : Main.ends_blank Cases.typed = false) by by_evaluation.
  split; [exact H1|]. split; [exact H2|].
  exact (read_text_returns_typed_lines Cases.typed ["t1"%string] H1 H2).
Defined.

Lemma read_text_eof_witness :
  Main.no_blank_pair Cases.typed = true
  /\ Main.read_text Cases.typed = (Raise (Exception "EOFError"), []).
Proof.
  assert (H1 : Main.no_blank_pair Cases.typed = true) by by_evaluation.
  split; [exact H1|].
  exact (read_text_without_blank_pair_raises Cases.typed H1).
Defined.
